(** * LLProxy: the admission and rate-limiting core

    A shallow embedding of [cmd/llproxy/scheduler.go], of the OpenAI provider
    (request parsing, token estimation, the HTTP handler) and of
    [forwardRequest], with the properties of the specification stated over
    it.

    Conventions of the embedding.
    - Go [float64] fields (capacities, rates, waits) are exact rationals [Q];
      comparisons are the boolean ones of the source.
    - [time.Time] and [time.Duration] are integers, in nanoseconds.
    - Go [int] is a 64-bit two's complement integer: [Z] with [wrap64]
      written where the source does arithmetic on it.
    - The clock is explicit.  Every [time.Sleep d] returns after [d] plus a
      non-negative scheduling lag taken from an oracle. *)

From Stdlib Require Import ZArith QArith Lia Lqa.
From Stdlib Require Import List String Ascii Bool.
Import ListNotations.

Local Open Scope Z_scope.

(** ** Rational helpers standing for float64 operations *)

Definition Qltb (a b : Q) : bool := negb (Qle_bool b a).
Definition Qleb (a b : Q) : bool := Qle_bool a b.

(** [math.Min] and [math.Max] on float64. *)
Definition math_Min (a b : Q) : Q := if Qleb a b then a else b.
Definition math_Max (a b : Q) : Q := if Qleb a b then b else a.

(** ** Time *)

Module time.
(** Nanoseconds, as [time.Duration]. *)
Definition Duration := Z.
Definition Time := Z.
Definition Nanosecond : Duration := 1.
Definition Second : Duration := 1000000000.
Definition Minute : Duration := 60 * Second.

(** [t.Sub u]. *)
Definition Sub (t u : Time) : Duration := t - u.

(** [d.Minutes()]: the duration as a floating point number of minutes. *)
Definition Minutes (d : Duration) : Q := inject_Z d / inject_Z Minute.

(** The conversion [time.Duration(x)] of a float64: truncation toward
    zero. *)
Definition of_float (x : Q) : Duration := Z.quot (Qnum x) (Zpos (Qden x)).
End time.

(** ** Configuration (config.go) *)

Record ModelConfig := mkModelConfig {
  MaxQueueSize : Z;
  MaxQueueWait : Q;
  ReqsPerMinute : Q;
  TokensPerMinute : Q;
  CharsPerMinute : Q
}.

(** ** Scheduler (scheduler.go) *)

Inductive Response := Ready | RateLimit | RequestTooLarge.

Definition Response_eqb (a b : Response) : bool :=
  match a, b with
  | Ready, Ready | RateLimit, RateLimit | RequestTooLarge, RequestTooLarge => true
  | _, _ => false
  end.

(** A [ScheduledRequest].  The [*http.Request] is only logged by the
    scheduler and is left out; the response channel is named by the
    identifier of the request that waits on it. *)
Record ScheduledRequest := mkScheduledRequest {
  ResponseChannel : nat;
  RequiredTokenCapacity : Q
}.

(** The fields of [Scheduler] that the admission loop owns.  The [Requests]
    channel is modelled apart, see [Chan] below. *)
Record Scheduler := mkScheduler {
  Config : ModelConfig;
  LastReqTime : time.Time;
  RequestCapacity : Q;
  TokenCapacity : Q
}.

(** The scheduler that [initSchedulers] builds for one model at time [now]. *)
Definition initScheduler (now : time.Time) (schedulerConfig : ModelConfig) : Scheduler :=
  {| Config := schedulerConfig;
     LastReqTime := now;
     RequestCapacity := ReqsPerMinute schedulerConfig;
     TokenCapacity := TokensPerMinute schedulerConfig |}.

Definition updateCapacity (now : time.Time) (scheduler : Scheduler) : Scheduler :=
  let cfg := Config scheduler in
  if Qltb (TokenCapacity scheduler) (TokensPerMinute cfg)
     || Qltb (RequestCapacity scheduler) (ReqsPerMinute cfg)
  then
    let elapsed := time.Minutes (time.Sub now (LastReqTime scheduler)) in
    let tokenCapacity := (TokenCapacity scheduler + elapsed * TokensPerMinute cfg)%Q in
    let requestCapacity := (RequestCapacity scheduler + elapsed * ReqsPerMinute cfg)%Q in
    {| Config := cfg;
       LastReqTime := now;
       RequestCapacity := math_Min requestCapacity (ReqsPerMinute cfg);
       TokenCapacity := math_Min tokenCapacity (TokensPerMinute cfg) |}
  else
    {| Config := cfg;
       LastReqTime := now;
       RequestCapacity := RequestCapacity scheduler;
       TokenCapacity := TokenCapacity scheduler |}.

Definition epsilon : Q := 1 # 10.

(** The three local variables of one pass of the loop of [waitForCapacity],
    computed after [updateCapacity]. *)
Definition requestTime (scheduler : Scheduler) : Q :=
  math_Max 0 ((1 - RequestCapacity scheduler) / ReqsPerMinute (Config scheduler))%Q.

Definition tokensTime (scheduler : Scheduler) (request : ScheduledRequest) : Q :=
  math_Max 0 ((RequiredTokenCapacity request - TokenCapacity scheduler)
              / TokensPerMinute (Config scheduler))%Q.

Definition capacityTime (scheduler : Scheduler) (request : ScheduledRequest) : Q :=
  math_Max (requestTime scheduler) (tokensTime scheduler request).

Definition sleepTime (scheduler : Scheduler) (request : ScheduledRequest) : time.Duration :=
  time.of_float (math_Min 2 (capacityTime scheduler request + epsilon)
                 * inject_Z time.Second)%Q.

(** The scheduling lag of the [i]-th sleep, in nanoseconds. *)
Definition Lag := nat -> N.

(** [waitForCapacity]: [fuel] bounds the passes of the loop, [i] counts the
    sleeps so far, [now] is the reading of [time.Now()] inside
    [updateCapacity].  The result is the state and the clock when the
    function returns, with the list of the sleeps it requested; [None] when
    the fuel is spent. *)
Fixpoint waitForCapacity (fuel : nat) (lag : Lag) (i : nat) (now : time.Time)
    (scheduler : Scheduler) (request : ScheduledRequest)
    : option (Scheduler * time.Time * list time.Duration) :=
  match fuel with
  | O => None
  | S fuel' =>
      let scheduler := updateCapacity now scheduler in
      if Qleb (capacityTime scheduler request) 0 then Some (scheduler, now, [])
      else
        let d := sleepTime scheduler request in
        match waitForCapacity fuel' lag (S i) (now + d + Z.of_N (lag i)) scheduler request with
        | Some (s', t', ds) => Some (s', t', d :: ds)
        | None => None
        end
  end.

(** The two assignments of [run] that allocate capacity to a request. *)
Definition allocate (scheduler : Scheduler) (request : ScheduledRequest) : Scheduler :=
  {| Config := Config scheduler;
     LastReqTime := LastReqTime scheduler;
     RequestCapacity := (RequestCapacity scheduler - 1)%Q;
     TokenCapacity := (TokenCapacity scheduler - RequiredTokenCapacity request)%Q |}.

(** What one pass of the [for] loop of [run] waits on. *)
Inductive Arrival :=
| Received (request : ScheduledRequest)   (* [req := <-scheduler.Requests] *)
| Timeout.                                (* [<-time.After(2s)] *)

(** What one pass of [run] did: the verdict it sent, on which channel. *)
Record Pass := mkPass {
  pass_scheduler : Scheduler;
  pass_clock : time.Time;
  pass_sent : option (nat * Response)
}.

(** One pass of the loop of [run], entered with the clock at [now] (the time
    the select returned). *)
Definition run_pass (fuel : nat) (lag : Lag) (now : time.Time)
    (scheduler : Scheduler) (a : Arrival) : option Pass :=
  match a with
  | Timeout => Some (mkPass (updateCapacity now scheduler) now None)
  | Received request =>
      if Qltb (TokensPerMinute (Config scheduler)) (RequiredTokenCapacity request)
      then Some (mkPass scheduler now (Some (ResponseChannel request, RequestTooLarge)))
      else
        match waitForCapacity fuel lag 0 now scheduler request with
        | None => None
        | Some (s, t, _) =>
            Some (mkPass (allocate s request) t (Some (ResponseChannel request, Ready)))
        end
  end.

(** The start of [run]: the two fatal checks. *)
Inductive Startup := Fatal (msg : string) | Started.

Definition run_start (scheduler : Scheduler) : Startup :=
  if Qleb (ReqsPerMinute (Config scheduler)) 1 then Fatal "Scheduler rpm too low (<=1) "
  else if Qleb (TokensPerMinute (Config scheduler)) 1 then Fatal "Scheduler tpm too low (<=1)"
  else Started.

(** The time at which the [select] of [run], begun at [now], returns. *)
Definition select_at (now : time.Time) (waited : N) (a : Arrival) : time.Time :=
  match a with
  | Received _ => now + Z.of_N waited
  | Timeout => now + 2 * time.Second + Z.of_N waited
  end.

(** The whole loop of [run] over a list of arrivals.  Each arrival comes
    with the time the [select] spent waiting for it; a timeout fires two
    seconds after the select began, plus that time.  Pass number [k] of the
    loop sleeps with the lags [lags k].  The result is the final state, the
    clock, and the verdicts sent, oldest first. *)
Fixpoint run_loop (fuel : nat) (lags : nat -> Lag) (k : nat) (now : time.Time)
    (scheduler : Scheduler) (arrivals : list (N * Arrival))
    : option (Scheduler * time.Time * list (nat * Response)) :=
  match arrivals with
  | [] => Some (scheduler, now, [])
  | (waited, a) :: rest =>
      match run_pass fuel (lags k) (select_at now waited a) scheduler a with
      | None => None
      | Some p =>
          match run_loop fuel lags (S k) (pass_clock p) (pass_scheduler p) rest with
          | None => None
          | Some (s', t', sent) =>
              Some (s', t', match pass_sent p with
                            | Some v => v :: sent
                            | None => sent
                            end)
          end
      end
  end.

(** The [Requests] channel: a buffer of capacity [MaxQueueSize], and whether
    the scheduler is parked in its receive. *)
Record Chan := mkChan {
  chan_buf : list ScheduledRequest;
  chan_cap : Z;
  chan_receiver_parked : bool
}.

(** [ch <- x].  [None]: the sending goroutine blocks.  A send goes through
    when a receiver is parked (the value is handed over; it is shown here as
    the one element of the buffer, which the receiver takes at once) or
    when the buffer has room. *)
Definition chan_send (c : Chan) (x : ScheduledRequest) : option Chan :=
  if chan_receiver_parked c then
    Some (mkChan (chan_buf c ++ [x]) (chan_cap c) false)
  else if Z.of_nat (List.length (chan_buf c)) <? chan_cap c then
    Some (mkChan (chan_buf c ++ [x]) (chan_cap c) false)
  else None.

(** ** Strings (the functions of Go's [strings] package that the code calls) *)

Module strings.
Local Open Scope string_scope.

Fixpoint Contains (s substr : string) : bool :=
  String.prefix substr s
  || match s with
     | EmptyString => false
     | String _ s' => Contains s' substr
     end.

Definition HasSuffix (s suffix : string) : bool :=
  let n := String.length s in
  let m := String.length suffix in
  (m <=? n)%nat && String.eqb (String.substring (n - m) m s) suffix.

(** [strings.Split(s, sep)] for a separator of one byte. *)
Fixpoint Split (s : string) (sep : ascii) : list string :=
  match s with
  | EmptyString => [EmptyString]
  | String c s' =>
      if Ascii.eqb c sep then EmptyString :: Split s' sep
      else match Split s' sep with
           | [] => [String c EmptyString]
           | seg :: rest => String c seg :: rest
           end
  end.

Definition Join (elems : list string) (sep : string) : string :=
  String.concat sep elems.
End strings.

(** ** Go [int] *)

Definition wrap64 (z : Z) : Z := (z + 2 ^ 63) mod 2 ^ 64 - 2 ^ 63.

(** ** Request bodies (the go-openai types the provider wraps) *)

Module openai.
Record ChatCompletionMessage := mkChatCompletionMessage {
  Role : string;
  Content : string;
  Name : string
}.

Record ChatCompletionRequest := mkChatCompletionRequest {
  Model : string;
  Messages : list ChatCompletionMessage;
  MaxTokens : Z;
  N : Z
}.
End openai.

(** The other request kinds: only their model is read.  [EditsRequest.Model]
    is a [*string], nil when the body has no model. *)
Record AudioRequest := mkAudioRequest { audio_Model : string }.
Record CompletionRequest := mkCompletionRequest { completion_Model : string }.
Record EmbeddingRequest := mkEmbeddingRequest { embedding_Model : string }.
Record EditsRequest := mkEditsRequest { edits_Model : option string }.

(** The [Request] interface, by its implementations. *)
Inductive Request :=
| ReqAudio (r : AudioRequest)
| ReqChatCompletion (r : openai.ChatCompletionRequest)
| ReqCompletion (r : CompletionRequest)
| ReqEmbedding (r : EmbeddingRequest)
| ReqEdits (r : EditsRequest).

Definition GPT_3_5_DEFAULT : string := "gpt-3.5-turbo-0613".
Definition GPT_4_DEFAULT : string := "gpt-4-0613".

(** A Go [(value, error)] result. *)
Inductive result (A : Type) := Ok (a : A) | Err (msg : string).
Arguments Ok {A} a.
Arguments Err {A} msg.

(** ** Token estimator *)

Section TokenEstimator.
Local Open Scope string_scope.

(** tiktoken: [EncodingForModel] gives the encoder of a model, or fails
    (the text of its error is not kept); an encoder maps a text to its
    tokens. *)
Variable EncodingForModel : string -> option (string -> list Z).

(** The [switch] of [TokensForRequest]: [tokensPerMessage] and
    [tokensPerName], or [None] in the default case. *)
Definition overhead (model : string) : option (Z * Z) :=
  if String.eqb model "gpt-3.5-turbo-0301" then Some (4, -1)
  else if String.eqb model "gpt-3.5-turbo-0613"
       || String.eqb model "gpt-3.5-turbo-16k-0613"
       || String.eqb model "gpt-4-0314"
       || String.eqb model "gpt-4-32k-0314"
       || String.eqb model "gpt-4-0613"
       || String.eqb model "gpt-4-32k-0613" then Some (3, 1)
  else if strings.Contains model "gpt-3.5-turbo" || strings.Contains model "gpt-4"
  then Some (3, 1)
  else None.

Definition len (l : list Z) : Z := Z.of_nat (List.length l).

(** The body of the [for] loop over the messages. *)
Definition count_message (tkm : string -> list Z) (tokensPerMessage tokensPerName : Z)
    (numTokens : Z) (message : openai.ChatCompletionMessage) : Z :=
  let numTokens := wrap64 (numTokens + tokensPerMessage) in
  let numTokens := wrap64 (numTokens + len (tkm (openai.Content message))) in
  let numTokens := wrap64 (numTokens + len (tkm (openai.Role message))) in
  let numTokens := wrap64 (numTokens + len (tkm (openai.Name message))) in
  if negb (String.eqb (openai.Name message) "")
  then wrap64 (numTokens + tokensPerName)
  else numTokens.

Definition ChatCompletionRequest_TokensForRequest (r : openai.ChatCompletionRequest)
    : result Z :=
  let model := openai.Model r in
  match EncodingForModel model with
  | None => Err ("encoding for model: " ++ model)
  | Some tkm =>
      let model :=
        if String.eqb model "gpt-3.5-turbo" then GPT_3_5_DEFAULT
        else if String.eqb model "gpt-4" then GPT_4_DEFAULT
        else model in
      let tokensPerRequest := 3 in
      match overhead model with
      | None => Err ("Unexpected model for chat completions: " ++ model)
      | Some (tokensPerMessage, tokensPerName) =>
          let numTokens :=
            fold_left (count_message tkm tokensPerMessage tokensPerName)
                      (openai.Messages r) 0 in
          let numTokens := wrap64 (numTokens + tokensPerRequest) in
          let n := openai.N r in
          let maxTokens := openai.MaxTokens r in
          let n := if (n <? 1)%Z then 1 else n in
          let maxTokens := if (maxTokens <? 1)%Z then 15 else maxTokens in
          Ok (wrap64 (numTokens + wrap64 (n * maxTokens)))
      end
  end.

Definition TokensForRequest (request : Request) : result Z :=
  match request with
  | ReqAudio _ => Ok 1000
  | ReqChatCompletion r => ChatCompletionRequest_TokensForRequest r
  | ReqCompletion _ => Ok 1000
  | ReqEmbedding _ => Ok 1000
  | ReqEdits _ => Ok 1000
  end.
End TokenEstimator.

(** ** HTTP *)

(** The fields of [url.URL] that the proxy reads or writes. *)
Record URL := mkURL {
  Scheme : string;
  Host : string;
  Path : string;
  RawQuery : string
}.

(** [url.Parse(u.String())]: what a URL becomes when it is printed and
    parsed again (net/url).  [String] writes a slash before a path that does
    not begin with one when the URL has a host; the other fields come back
    as they were. *)
Definition url_reparse (u : URL) : URL :=
  match Path u with
  | EmptyString => u
  | String c _ =>
      if negb (Ascii.eqb c "/") && negb (String.eqb (Host u) "")
      then mkURL (Scheme u) (Host u) (String "/" (Path u)) (RawQuery u)
      else u
  end.

(** [u.RequestURI()]'s path: the request target written on the wire, where
    an empty path is sent as a slash (net/url). *)
Definition wire_path (u : URL) : string :=
  match Path u with
  | EmptyString => "/"
  | p => p
  end.

Definition URL_String (u : URL) : string :=
  ((if String.eqb (Scheme u) "" then "" else Scheme u ++ ":")
   ++ (if String.eqb (Host u) "" then "" else "//" ++ Host u)
   ++ Path (url_reparse u)
   ++ (if String.eqb (RawQuery u) "" then "" else "?" ++ RawQuery u))%string.

(** An inbound [*http.Request]; headers are copied through unread and are
    left out. *)
Record HttpRequest := mkHttpRequest {
  Method : string;
  req_URL : URL;
  Body : string
}.

Record HttpResponse := mkHttpResponse {
  StatusCode : Z;
  resp_Body : string
}.

(** [http.ResponseWriter]: the status line once written, and the body so
    far. *)
Record ResponseWriter := mkResponseWriter {
  rw_status : option Z;
  rw_body : string
}.

Definition new_ResponseWriter : ResponseWriter := mkResponseWriter None "".

(** [w.WriteHeader(code)]: only the first call counts. *)
Definition WriteHeader (code : Z) (w : ResponseWriter) : ResponseWriter :=
  match rw_status w with
  | Some _ => w
  | None => mkResponseWriter (Some code) (rw_body w)
  end.

(** [w.Write(data)]: writes the header with 200 when none was written. *)
Definition Write (data : string) (w : ResponseWriter) : ResponseWriter :=
  let w := WriteHeader 200 w in
  mkResponseWriter (rw_status w) (rw_body w ++ data).

(** [http.Error(w, error, code)]. *)
Definition http_Error (w : ResponseWriter) (error : string) (code : Z) : ResponseWriter :=
  Write (error ++ String "010" "") (WriteHeader code w).

Definition StatusBadRequest : Z := 400.
Definition StatusTooManyRequests : Z := 429.
Definition StatusServiceUnavailable : Z := 503.
Definition StatusOK : Z := 200.
Definition StatusNotFound : Z := 404.
Definition MethodPost : string := "POST".

(** A function that returns or panics. *)
Inductive Outcome (A : Type) := Returns (a : A) | Panics (msg : string).
Arguments Returns {A} a.
Arguments Panics {A} msg.

(** [json.Unmarshal] at each of the five request types. *)
Record JSON := mkJSON {
  Unmarshal_Audio : string -> result AudioRequest;
  Unmarshal_ChatCompletion : string -> result openai.ChatCompletionRequest;
  Unmarshal_Completion : string -> result CompletionRequest;
  Unmarshal_Embedding : string -> result EmbeddingRequest;
  Unmarshal_Edits : string -> result EditsRequest
}.

(** A scheduler as the dispatcher sees it: its state and its channel. *)
Record SchedulerRef := mkSchedulerRef {
  ref_scheduler : Scheduler;
  Requests : Chan
}.

Definition SchedulerMap := list (string * SchedulerRef).

Fixpoint SchedulerMap_get (m : SchedulerMap) (model : string) : option SchedulerRef :=
  match m with
  | [] => None
  | (name, s) :: rest => if String.eqb name model then Some s else SchedulerMap_get rest model
  end.

Record OpenAIProvider := mkOpenAIProvider {
  urlBase : string;
  schedulers : SchedulerMap
}.

(** What a handler has done when it returns: the response, and the requests
    it sent upstream, oldest first. *)
Record Served := mkServed {
  served_response : ResponseWriter;
  served_upstream : list HttpRequest
}.

Section Provider.
Local Open Scope string_scope.

Variable EncodingForModel : string -> option (string -> list Z).
Variable json : JSON.
(** The method [Parse] of a URL value: inside [forwardRequest] the local
    variable [url] hides the package, so [url.Parse(URLBase)] parses
    [URLBase] as a reference against the inbound URL. *)
Variable URL_Parse : URL -> string -> result URL.
(** [client.Do]. *)
Variable client_Do : HttpRequest -> result HttpResponse.

(** [forwardRequest]: the writer after the call, the requests handed to
    the client, and the error returned.  A URL that was parsed prints and
    parses again, and a method that was received makes a request: the error
    returns after [url.Parse(r.URL.String())] and [http.NewRequest] are
    left out, as is a failure of [io.Copy] while the body is streamed. *)
Definition forwardRequest (URLBase : string) (w : ResponseWriter) (r : HttpRequest)
    : ResponseWriter * list HttpRequest * option string :=
  let url := url_reparse (req_URL r) in
  let segments := strings.Split (Path url) "/" in
  if (List.length segments <? 2)%nat then
    (w, [], Some ("Invalid URL: " ++ URL_String url))
  else
    let newPath := strings.Join (skipn 2 segments) "/" in
    match URL_Parse url URLBase with
    | Err e => (w, [], Some e)
    | Ok targetURL =>
        let url := mkURL (Scheme targetURL) (Host targetURL) newPath (RawQuery url) in
        let request := mkHttpRequest (Method r) (url_reparse url) (Body r) in
        match client_Do request with
        | Err e => (w, [request], Some e)
        | Ok resp =>
            let w := WriteHeader (StatusCode resp) w in
            let w := Write (resp_Body resp) w in
            (w, [request], None)
        end
    end.

Definition unmarshal_error (path err : string) : string :=
  "error reading request body, " ++ path ++ ": " ++ err.

(** [ParseRequest]: the triple [(model, request, err)]; a nil [request] is
    [None].  The body is a string already read: the error of
    [ioutil.ReadAll] is left out. *)
Definition ParseRequest (r : HttpRequest)
    : Outcome (string * option Request * option string) :=
  let path := Path (req_URL r) in
  if negb (String.eqb (Method r) MethodPost) then Returns ("", None, None)
  else if strings.Contains path "/v1/files" then Returns ("", None, None)
  else if strings.Contains path "/v1/fine-tunes" then Returns ("", None, None)
  else if strings.Contains path "/v1/moderations" then Returns ("", None, None)
  else if strings.Contains path "/v1/images" then Returns ("DALL-E 2", None, None)
  else if strings.Contains path "/v1/audio" then
    match Unmarshal_Audio json (Body r) with
    | Err e => Returns ("", None, Some (unmarshal_error path e))
    | Ok request => Returns (audio_Model request, Some (ReqAudio request), None)
    end
  else if strings.HasSuffix path "/v1/chat/completions" then
    match Unmarshal_ChatCompletion json (Body r) with
    | Err e => Returns ("", None, Some (unmarshal_error path e))
    | Ok request => Returns (openai.Model request, Some (ReqChatCompletion request), None)
    end
  else if strings.HasSuffix path "/v1/completions" then
    match Unmarshal_Completion json (Body r) with
    | Err e => Returns ("", None, Some (unmarshal_error path e))
    | Ok request => Returns (completion_Model request, Some (ReqCompletion request), None)
    end
  else if strings.HasSuffix path "/v1/embeddings" then
    match Unmarshal_Embedding json (Body r) with
    | Err e => Returns ("", None, Some (unmarshal_error path e))
    | Ok request => Returns (embedding_Model request, Some (ReqEmbedding request), None)
    end
  else if strings.HasSuffix path "/v1/edits" then
    match Unmarshal_Edits json (Body r) with
    | Err e => Returns ("", None, Some (unmarshal_error path e))
    | Ok request =>
        match edits_Model request with
        | None => Panics "invalid memory address or nil pointer dereference"
        | Some model => Returns (model, Some (ReqEdits request), None)
        end
    end
  else Returns ("", None, None).

(** The tail of the handler: forward, and report a failure as 503. *)
Definition forward_and_report (o : OpenAIProvider) (w : ResponseWriter) (r : HttpRequest)
    : Served :=
  match forwardRequest (urlBase o) w r with
  | (w, sent, Some err) =>
      mkServed (http_Error w ("LLMProxy: Error forwarding request: " ++ err)
                           StatusServiceUnavailable) sent
  | (w, sent, None) => mkServed w sent
  end.

(** The handler from the receive [response := <-responseChannel] on. *)
Definition after_verdict (o : OpenAIProvider) (model : string) (w : ResponseWriter)
    (r : HttpRequest) (response : Response) : Served :=
  if Response_eqb response RateLimit then
    mkServed (http_Error w ("LLMProxy: RateLimit exceeded for model '" ++ model ++ "'")
                         StatusTooManyRequests) []
  else
    let w :=
      if Response_eqb response RequestTooLarge then
        http_Error w ("LLProxy: Request too large for model '" ++ model ++ "'")
                   StatusBadRequest
      else w in
    forward_and_report o w r.

(** The handler up to its send on the scheduler's channel. *)
Inductive Handler :=
| Finished (s : Served)
| Panicked (msg : string)
| Sending (model : string) (scheduler : SchedulerRef) (request : ScheduledRequest)
          (k : Response -> Served).

(** The closure that [GetHandler] returns; [id] names the response channel
    it makes. *)
Definition GetHandler (o : OpenAIProvider) (id : nat) (w : ResponseWriter)
    (r : HttpRequest) : Handler :=
  match ParseRequest r with
  | Panics msg => Panicked msg
  | Returns (_, _, Some err) =>
      Finished (mkServed (http_Error w ("LLProxy: " ++ err) StatusBadRequest) [])
  | Returns (model, request, None) =>
      if negb (String.eqb model "") then
        match SchedulerMap_get (schedulers o) model with
        | None =>
            Finished (mkServed
              (http_Error w ("LLMProxy: No scheduler found for model '" ++ model ++ "'")
                          StatusBadRequest) [])
        | Some scheduler =>
            match request with
            | None => Panicked "invalid memory address or nil pointer dereference"
            | Some request =>
                match TokensForRequest EncodingForModel request with
                | Err _ =>
                    Finished (mkServed
                      (http_Error w "LLMProxy: could not extract tokens for request"
                                  StatusBadRequest) [])
                | Ok tokens =>
                    let cfg := Config (ref_scheduler scheduler) in
                    if Qltb (ReqsPerMinute cfg) 1
                       || Qltb (TokensPerMinute cfg) (inject_Z tokens)
                    then
                      Finished (mkServed
                        (http_Error w ("LLProxy: Request too large for model '" ++ model ++ "'")
                                    StatusBadRequest) [])
                    else
                      Sending model scheduler
                              (mkScheduledRequest id (inject_Z tokens))
                              (after_verdict o model w r)
                end
            end
        end
      else Finished (forward_and_report o w r)
  end.

(** The handler run against the channel: what the client observes. *)
Inductive Progress :=
| Responded (s : Served)
| Crashed (msg : string)
| BlockedInSend (model : string) (request : ScheduledRequest)
| AwaitingVerdict (model : string) (c : Chan) (k : Response -> Served).

(** Runs the handler until it returns, panics, parks in the channel send,
    or has enqueued its request and waits for the verdict. *)
Definition serve (o : OpenAIProvider) (id : nat) (r : HttpRequest) : Progress :=
  match GetHandler o id new_ResponseWriter r with
  | Finished s => Responded s
  | Panicked msg => Crashed msg
  | Sending model scheduler request k =>
      match chan_send (Requests scheduler) request with
      | None => BlockedInSend model request
      | Some c => AwaitingVerdict model c k
      end
  end.
End Provider.

(** ** Fixtures of the test suite (openai_test.go) *)

Module Fixtures.
Local Open Scope string_scope.

Definition FAKE_BASE_URL : string := "https://fake-testing-host.com".
Definition TEST_MODEL : string := "gpt-3.5-turbo".

(** [MockHttpClient.Do]. *)
Definition MockHttpClient_Do (req : HttpRequest) : result HttpResponse :=
  let path := Path (req_URL req) in
  if strings.HasSuffix path "/v1/chat/completions"
  then Ok (mkHttpResponse StatusOK "dummy response")
  else if strings.HasSuffix path "/v1/embeddings"
  then Ok (mkHttpResponse StatusOK "dummy embedding")
  else Ok (mkHttpResponse StatusNotFound "not found").

(** The model configuration of [CreateOpenAI]. *)
Definition test_config : ModelConfig :=
  {| MaxQueueSize := 10;
     MaxQueueWait := 1;
     ReqsPerMinute := 60;
     TokensPerMinute := 60000;
     CharsPerMinute := 0 |}.

(** A stand-in for tiktoken, for closed examples: known for the models of
    the gpt-3.5-turbo and gpt-4 families, one token per word. *)
Fixpoint words (cur : string) (s : string) : list string :=
  match s with
  | EmptyString => if String.eqb cur "" then [] else [cur]
  | String c s' =>
      if Ascii.eqb c " "
      then (if String.eqb cur "" then words "" s' else cur :: words "" s')
      else words (cur ++ String c "") s'
  end.

Definition word_encoder (text : string) : list Z :=
  map (fun w => Z.of_nat (String.length w)) (words "" text).

Definition test_EncodingForModel (model : string) : option (string -> list Z) :=
  if String.prefix "gpt-3.5-turbo" model || String.prefix "gpt-4" model
  then Some word_encoder else None.

Definition test_chat_body : string :=
  "{'model': 'gpt-3.5-turbo', 'messages': [{'role': 'system', 'content': 'test'}]}".

Definition test_chat_request : openai.ChatCompletionRequest :=
  openai.mkChatCompletionRequest TEST_MODEL
    [openai.mkChatCompletionMessage "system" "test" ""] 0 0.

(** A stand-in for [json.Unmarshal] that knows the body of the handler
    tests (its quotation marks written as apostrophes here) and fails on
    every other body as on an empty one. *)
Definition test_json : JSON :=
  let eof {A} : result A := Err "unexpected end of JSON input" in
  {| Unmarshal_Audio := fun _ => eof;
     Unmarshal_ChatCompletion :=
       fun body => if String.eqb body test_chat_body then Ok test_chat_request else eof;
     Unmarshal_Completion := fun _ => eof;
     Unmarshal_Embedding :=
       fun body => if String.eqb body test_chat_body
                   then Ok (mkEmbeddingRequest TEST_MODEL) else eof;
     Unmarshal_Edits := fun _ => eof |}.

(** A stand-in for the URL parser that knows the base URL of the tests. *)
Definition test_URL_Parse (u : URL) (ref : string) : result URL :=
  if String.eqb ref FAKE_BASE_URL
  then Ok (mkURL "https" "fake-testing-host.com" "" "")
  else Err "parse error".

(** [CreateOpenAI] at time 0, with a given state of the channel. *)
Definition CreateOpenAI (c : Chan) : OpenAIProvider :=
  {| urlBase := FAKE_BASE_URL;
     schedulers := [(TEST_MODEL, mkSchedulerRef (initScheduler 0 test_config) c)] |}.

(** A scheduler of the test configuration whose tokens were all spent at
    time 0, and a clock without scheduling lag. *)
Definition drained : Scheduler :=
  {| Config := test_config;
     LastReqTime := 0;
     RequestCapacity := 59;
     TokenCapacity := 0 |}.

Definition no_lag : Lag := fun _ => 0%N.

(** The channel of the test scheduler, empty and full, the scheduler not
    parked in its receive. *)
Definition empty_chan : Chan := mkChan [] (MaxQueueSize test_config) false.

Definition full_chan : Chan :=
  mkChan (repeat (mkScheduledRequest 0 1000) 10) (MaxQueueSize test_config) false.

Definition test_serve := serve test_EncodingForModel test_json test_URL_Parse MockHttpClient_Do.

Definition POST (path body : string) : HttpRequest :=
  mkHttpRequest "POST" (mkURL "http" "localhost:8080" path "") body.
End Fixtures.

(** ** Predicates of the specification *)

(** The capacities are within their bounds. *)
Definition capacity_bounds (s : Scheduler) : Prop :=
  (0 <= RequestCapacity s <= ReqsPerMinute (Config s))%Q
  /\ (0 <= TokenCapacity s <= TokensPerMinute (Config s))%Q.

(** The admission condition. *)
Definition admissible (s : Scheduler) (request : ScheduledRequest) : Prop :=
  (1 <= RequestCapacity s)%Q /\ (RequiredTokenCapacity request <= TokenCapacity s)%Q.

(** A request that the [select] of [run] received carries a cost that is
    not negative. *)
Definition nonneg_cost (a : N * Arrival) : Prop :=
  match snd a with
  | Received request => (0 <= RequiredTokenCapacity request)%Q
  | Timeout => True
  end.

(** The sleep that the wait policy of the specification asks for, for a
    capacity gap of [need] minutes: min(2 seconds, need*60 seconds + epsilon). *)
Definition spec_sleepTime (need : Q) : time.Duration :=
  time.of_float (math_Min 2 (need * 60 + epsilon) * inject_Z time.Second)%Q.

(** The deadline of a reservation submitted at [submitted_at]. *)
Definition deadline (cfg : ModelConfig) (submitted_at : time.Time) : time.Time :=
  submitted_at + time.of_float (MaxQueueWait cfg * inject_Z time.Second)%Q.

(** The token cost of a chat completion in the words of the specification,
    for an encoder [E], over the integers. *)
Definition per_message (model : string) : Z :=
  if String.eqb model "gpt-3.5-turbo-0301" then 4 else 3.

Definition per_name (model : string) : Z :=
  if String.eqb model "gpt-3.5-turbo-0301" then -1 else 1.

Definition per_request : Z := 3.

Definition spec_message_cost (E : string -> list Z) (model : string)
    (m : openai.ChatCompletionMessage) : Z :=
  per_message model
  + len (E (openai.Content m)) + len (E (openai.Role m)) + len (E (openai.Name m))
  + (if String.eqb (openai.Name m) "" then 0 else per_name model).

Definition spec_chat_cost (E : string -> list Z) (r : openai.ChatCompletionRequest) : Z :=
  fold_right Z.add 0 (map (spec_message_cost E (openai.Model r)) (openai.Messages r))
  + per_request
  + (if openai.N r <? 1 then 1 else openai.N r)
    * (if openai.MaxTokens r <? 1 then 15 else openai.MaxTokens r).

(** A model name of the chat families. *)
Definition chat_family (model : string) : bool :=
  strings.Contains model "gpt-3.5-turbo" || strings.Contains model "gpt-4".

(** The range of a Go [int]. *)
Definition fits_int (z : Z) : Prop := - 2 ^ 63 <= z < 2 ^ 63.

(** The request of scenario S4. *)
Definition S4_request : openai.ChatCompletionRequest :=
  openai.mkChatCompletionRequest "gpt-3.5-turbo"
    [openai.mkChatCompletionMessage "system" "test" ""] 1 0.


(** A rate-limit rejection: the handler has returned, with 429, and sent
    nothing upstream. *)
Definition rejected_429 (p : Progress) : Prop :=
  exists s, p = Responded s
            /\ rw_status (served_response s) = Some StatusTooManyRequests
            /\ served_upstream s = [].


(** ** What a run of the scheduler is expected to send and to admit *)

(** The verdict that [run] gives a reservation: the check on its size. *)
Definition verdict_for (cfg : ModelConfig) (request : ScheduledRequest) : Response :=
  if Qltb (TokensPerMinute cfg) (RequiredTokenCapacity request)
  then RequestTooLarge else Ready.

(** One verdict for each reservation received, in the order of arrival. *)
Fixpoint expected_verdicts (cfg : ModelConfig) (arrivals : list (N * Arrival))
    : list (nat * Response) :=
  match arrivals with
  | [] => []
  | (_, Received request) :: rest =>
      (ResponseChannel request, verdict_for cfg request) :: expected_verdicts cfg rest
  | (_, Timeout) :: rest => expected_verdicts cfg rest
  end.



(** The lags of the first [n] sleeps after sleep [i]. *)
Fixpoint lags_sum (lag : Lag) (i n : nat) : Z :=
  match n with
  | O => 0
  | S n' => Z.of_N (lag i) + lags_sum lag (S i) n'
  end.



(** ** Start-up (scheduler.go, the provider, config.go) *)

(** A start-up step: done, stopped by [zap.S().Fatal...] (the process
    exits), or stopped by a panic. *)
Inductive Init (A : Type) :=
| Initialized (a : A)
| InitFatal (msg : string)
| InitPanic (msg : string).
Arguments Initialized {A} a.
Arguments InitFatal {A} msg.
Arguments InitPanic {A} msg.

(** A Go map with string keys, as the list of its entries in the order a
    [range] visits them; a key is looked up at its first entry. *)
Definition GoMap (A : Type) := list (string * A).

Fixpoint GoMap_get {A : Type} (m : GoMap A) (key : string) : option A :=
  match m with
  | [] => None
  | (k, a) :: rest => if String.eqb k key then Some a else GoMap_get rest key
  end.

Record RouteConfig := mkRouteConfig {
  Forward : string;
  Provider : string;
  Models : GoMap ModelConfig
}.

(** [initSchedulers]: a scheduler for each model, full, created at the time
    [now name], with an empty channel of capacity [MaxQueueSize].
    [make(chan T, n)] panics for a negative [n]. *)
Fixpoint initSchedulers (now : string -> time.Time) (config : GoMap ModelConfig)
    : Outcome SchedulerMap :=
  match config with
  | [] => Returns []
  | (name, schedulerConfig) :: rest =>
      if MaxQueueSize schedulerConfig <? 0 then Panics "makechan: size out of range"
      else
        match initSchedulers now rest with
        | Panics msg => Panics msg
        | Returns schedulers =>
            Returns ((name,
                      mkSchedulerRef (initScheduler (now name) schedulerConfig)
                                     (mkChan [] (MaxQueueSize schedulerConfig) false))
                     :: schedulers)
        end
  end.

(** [NewOpenAI]. *)
Definition NewOpenAI (now : string -> time.Time) (config : RouteConfig)
    : Init OpenAIProvider :=
  if negb (String.eqb (Provider config) "openai") then
    InitFatal ("Initializing OpenAI provider with config for " ++ Provider config)
  else
    match initSchedulers now (Models config) with
    | Panics msg => InitPanic msg
    | Returns schedulers =>
        Initialized {| urlBase := Forward config; schedulers := schedulers |}
    end.

(** [initProviders]: the handler of a route is the closure of its provider,
    kept here as the provider. *)
Fixpoint initProviders (now : string -> time.Time) (routes : GoMap RouteConfig)
    : Init (GoMap OpenAIProvider) :=
  match routes with
  | [] => Initialized []
  | (route, routeConfig) :: rest =>
      if String.eqb (Provider routeConfig) "openai" then
        match NewOpenAI now routeConfig with
        | Initialized openai =>
            match initProviders now rest with
            | Initialized handlers => Initialized ((route, openai) :: handlers)
            | InitFatal msg => InitFatal msg
            | InitPanic msg => InitPanic msg
            end
        | InitFatal msg => InitFatal msg
        | InitPanic msg => InitPanic msg
        end
      else
        InitFatal ("Unexpected Provider: '" ++ Provider routeConfig ++ "'"
                   ++ String "010" "" ++ "Currently supported providers: [openai]")
  end.

Record LoggingConfig := mkLoggingConfig {
  Level : string;
  Type_ : string
}.

Record AppConfig := mkAppConfig {
  Port : Z;
  HealthPort : Z
}.

Record GoConfig := mkConfig {
  Application : AppConfig;
  Logging : LoggingConfig;
  Routes : GoMap RouteConfig
}.

(** [LoadConfig], over the file system and the JSON decoder. *)
Definition LoadConfig (ReadFile : string -> result string)
    (Unmarshal : string -> result GoConfig) (configFilePath : string) : Outcome GoConfig :=
  match ReadFile configFilePath with
  | Err e => Panics ("Failed to read config file: " ++ e)
  | Ok data =>
      match Unmarshal data with
      | Err e => Panics ("Failed to parse config file: " ++ e)
      | Ok config =>
          let level := if String.eqb (Level (Logging config)) "" then "info"
                       else Level (Logging config) in
          let type := if String.eqb (Type_ (Logging config)) "" then "console"
                      else Type_ (Logging config) in
          let port := (if Port (Application config) =? 0 then 8080
                       else Port (Application config))%Z in
          let healthPort := (if HealthPort (Application config) =? 0 then 8081
                             else HealthPort (Application config))%Z in
          Returns (mkConfig (mkAppConfig port healthPort) (mkLoggingConfig level type)
                            (Routes config))
      end
  end%string.

(** [ConfigureLogging], over zap's [ParseLevel]: [Returns] the level set,
    or panics.  The logger configuration is a literal of the source, which
    decodes and builds. *)
Definition ConfigureLogging (ParseLevel : string -> result Z) (logType logLevel : string)
    : Outcome Z :=
  if String.eqb logType "json" || String.eqb logType "console" then
    match ParseLevel logLevel with
    | Err e => Panics e
    | Ok level => Returns level
    end
  else Panics ("unknown log_type " ++ logType).

(** ** Health endpoints (health.go) *)

(** The readiness flag [isReady], true when the process starts. *)
Definition isReady_initial : bool := true.

Definition HealthShutdown (isReady : bool) : bool := false.

Definition getHealthZ (w : ResponseWriter) : ResponseWriter :=
  Write "OK" (WriteHeader StatusOK w).

Definition getReadyZ (isReady : bool) (w : ResponseWriter) : ResponseWriter :=
  if isReady then Write "OK" (WriteHeader StatusOK w)
  else Write "Not Ready" (WriteHeader StatusServiceUnavailable w).

(** What reaches the health server and the flag. *)
Inductive HealthEvent := GetHealthZ | GetReadyZ | Shutdown.

(** The responses to a sequence of events, and the flag after it. *)
Fixpoint health_run (isReady : bool) (events : list HealthEvent)
    : list (HealthEvent * ResponseWriter) * bool :=
  match events with
  | [] => ([], isReady)
  | GetHealthZ :: rest =>
      let (rs, final) := health_run isReady rest in
      ((GetHealthZ, getHealthZ new_ResponseWriter) :: rs, final)
  | GetReadyZ :: rest =>
      let (rs, final) := health_run isReady rest in
      ((GetReadyZ, getReadyZ isReady new_ResponseWriter) :: rs, final)
  | Shutdown :: rest => health_run (HealthShutdown isReady) rest
  end.

(** ** Headers (copyHeader) *)

(** An [http.Header]: the values of each key. *)
Definition Header := GoMap (list string).

Definition Header_Values (h : Header) (key : string) : list string :=
  match GoMap_get h key with
  | Some vv => vv
  | None => []
  end.

(** [h[key] = append(h[key], value)]. *)
Fixpoint Header_append (h : Header) (key value : string) : Header :=
  match h with
  | [] => [(key, [value])]
  | (k, vv) :: rest =>
      if String.eqb k key then (k, vv ++ [value]) :: rest
      else (k, vv) :: Header_append rest key value
  end.

Section CopyHeader.
(** [textproto.CanonicalMIMEHeaderKey]. *)
Variable CanonicalMIMEHeaderKey : string -> string.

(** [h.Add(key, value)]. *)
Definition Header_Add (h : Header) (key value : string) : Header :=
  Header_append h (CanonicalMIMEHeaderKey key) value.

(** [copyHeader(dst, src)]; [dst] is updated in place, the result is its
    new content. *)
Definition copyHeader (dst src : Header) : Header :=
  fold_left (fun dst kvv =>
               fold_left (fun dst v => Header_Add dst (fst kvv) v) (snd kvv) dst)
            src dst.
End CopyHeader.

(** ** More fixtures *)

Module Samples.
Local Open Scope string_scope.

(** The route of the README, with the model of the tests beside its own. *)
Definition gpt4_config : ModelConfig :=
  {| MaxQueueSize := 10; MaxQueueWait := 30; ReqsPerMinute := 200;
     TokensPerMinute := 40000; CharsPerMinute := 0 |}.

Definition openai_route : RouteConfig :=
  mkRouteConfig "https://api.openai.com" "openai"
                [("gpt-4", gpt4_config); ("gpt-3.5-turbo", Fixtures.test_config)].

(** A provider that has a scheduler named DALL-E 2. *)
Definition dalle_provider : OpenAIProvider :=
  {| urlBase := Fixtures.FAKE_BASE_URL;
     schedulers := [("DALL-E 2",
                     mkSchedulerRef (initScheduler 0 Fixtures.test_config)
                                    Fixtures.empty_chan)] |}.

(** A decoder that reads every edits body as a request without a model. *)
Definition edits_json : JSON :=
  {| Unmarshal_Audio := Unmarshal_Audio Fixtures.test_json;
     Unmarshal_ChatCompletion := Unmarshal_ChatCompletion Fixtures.test_json;
     Unmarshal_Completion := Unmarshal_Completion Fixtures.test_json;
     Unmarshal_Embedding := Unmarshal_Embedding Fixtures.test_json;
     Unmarshal_Edits := fun _ => Ok (mkEditsRequest None) |}.


(** A file system with one configuration file, and its decoder. *)
Definition sample_ReadFile (path : string) : result string :=
  if String.eqb path "config.json" then Ok "{'routes': {}}"
  else Err "open: no such file or directory".

Definition sample_Unmarshal (data : string) : result GoConfig :=
  if String.eqb data "{'routes': {}}"
  then Ok (mkConfig (mkAppConfig 0 0) (mkLoggingConfig "" "") [])
  else Err "unexpected end of JSON input".

Definition sample_ParseLevel (level : string) : result Z :=
  if String.eqb level "debug" then Ok (-1)
  else if String.eqb level "info" then Ok 0
  else Err ("unrecognized level: " ++ level).
End Samples.


(** The answer that the health server owes to an event, for a value of the
    readiness flag. *)
Definition health_answer (isReady : bool) (r : HealthEvent * ResponseWriter) : Prop :=
  match fst r with
  | GetHealthZ => snd r = mkResponseWriter (Some StatusOK) "OK"
  | GetReadyZ =>
      snd r = if isReady then mkResponseWriter (Some StatusOK) "OK"
              else mkResponseWriter (Some StatusServiceUnavailable) "Not Ready"
  | Shutdown => False
  end.

(** * Properties *)

(** ** Rational comparisons *)

Lemma Qltb_lt (a b : Q) : Qltb a b = true <-> (a < b)%Q.
Proof.
  unfold Qltb. rewrite negb_true_iff.
  split; intro H.
  - apply Qnot_le_lt. intro Hle. apply Qle_bool_iff in Hle. congruence.
  - destruct (Qle_bool b a) eqn:E; auto.
    apply Qle_bool_iff in E. exfalso. apply (Qlt_not_le _ _ H E).
Qed.

Lemma Qltb_ge (a b : Q) : Qltb a b = false <-> (b <= a)%Q.
Proof.
  unfold Qltb. rewrite negb_false_iff. apply Qle_bool_iff.
Qed.

Lemma Qleb_le (a b : Q) : Qleb a b = true <-> (a <= b)%Q.
Proof. apply Qle_bool_iff. Qed.

Lemma Qleb_gt (a b : Q) : Qleb a b = false <-> (b < a)%Q.
Proof.
  unfold Qleb. split; intro H.
  - apply Qnot_le_lt. intro Hle. apply Qle_bool_iff in Hle. congruence.
  - destruct (Qle_bool a b) eqn:E; auto.
    apply Qle_bool_iff in E. exfalso. apply (Qlt_not_le _ _ H E).
Qed.

Lemma math_Min_le_l (a b : Q) : (math_Min a b <= a)%Q.
Proof.
  unfold math_Min. destruct (Qleb a b) eqn:E.
  - apply Qle_refl.
  - apply Qleb_gt in E. apply Qlt_le_weak, E.
Qed.

Lemma math_Min_le_r (a b : Q) : (math_Min a b <= b)%Q.
Proof.
  unfold math_Min. destruct (Qleb a b) eqn:E.
  - apply Qleb_le, E.
  - apply Qle_refl.
Qed.

Lemma math_Min_glb (a b c : Q) : (c <= a)%Q -> (c <= b)%Q -> (c <= math_Min a b)%Q.
Proof. intros. unfold math_Min. destruct (Qleb a b); assumption. Qed.

Lemma math_Max_ge_l (a b : Q) : (a <= math_Max a b)%Q.
Proof.
  unfold math_Max. destruct (Qleb a b) eqn:E.
  - apply Qleb_le, E.
  - apply Qle_refl.
Qed.

Lemma math_Max_ge_r (a b : Q) : (b <= math_Max a b)%Q.
Proof.
  unfold math_Max. destruct (Qleb a b) eqn:E.
  - apply Qle_refl.
  - apply Qleb_gt in E. apply Qlt_le_weak, E.
Qed.

Lemma math_Max_lub (a b c : Q) : (a <= c)%Q -> (b <= c)%Q -> (math_Max a b <= c)%Q.
Proof. intros. unfold math_Max. destruct (Qleb a b); assumption. Qed.

Lemma Qdiv_nonpos (a b : Q) : (0 < b)%Q -> ((a / b <= 0)%Q <-> (a <= 0)%Q).
Proof.
  intro Hb. split; intro H.
  - assert (E : (a == a / b * b)%Q) by (field; intro Hz; rewrite Hz in Hb; discriminate).
    rewrite E. nra.
  - apply Qle_shift_div_r; [exact Hb | lra].
Qed.

Lemma Qdiv_pos (a b : Q) : (0 < b)%Q -> (0 < a)%Q -> (0 < a / b)%Q.
Proof.
  intros Hb Ha. apply Qlt_shift_div_l; [exact Hb | lra].
Qed.

(** ** Time *)

Lemma Minutes_eq (d : time.Duration) :
  (time.Minutes d == inject_Z d * (1 # 60000000000))%Q.
Proof. unfold time.Minutes, Qdiv. reflexivity. Qed.

Lemma inject_Z_nonneg (d : Z) : 0 <= d -> (0 <= inject_Z d)%Q.
Proof. intro H. change 0%Q with (inject_Z 0). rewrite <- Zle_Qle. exact H. Qed.

Lemma Minutes_nonneg (d : time.Duration) : 0 <= d -> (0 <= time.Minutes d)%Q.
Proof.
  intro H. rewrite Minutes_eq. pose proof (inject_Z_nonneg d H). lra.
Qed.

Lemma Minutes_mono (d e : time.Duration) : d <= e -> (time.Minutes d <= time.Minutes e)%Q.
Proof.
  intro H. rewrite !Minutes_eq. rewrite Zle_Qle in H. lra.
Qed.

Lemma of_float_ge (x : Q) (n : Z) : (inject_Z n <= x)%Q -> 0 <= n -> n <= time.of_float x.
Proof.
  intros H Hn. unfold time.of_float.
  destruct x as [p q]. unfold Qle in H. simpl in *.
  apply Z.quot_le_lower_bound; lia.
Qed.

Lemma of_float_le (x : Q) (n : Z) : (0 <= x)%Q -> (x <= inject_Z n)%Q -> time.of_float x <= n.
Proof.
  intros H0 H. unfold time.of_float.
  destruct x as [p q]. unfold Qle in H, H0. simpl in *.
  apply Z.quot_le_upper_bound; lia.
Qed.

(** ** The scheduler *)

Lemma run_start_Started (s : Scheduler) :
  run_start s = Started <->
  (1 < ReqsPerMinute (Config s))%Q /\ (1 < TokensPerMinute (Config s))%Q.
Proof.
  unfold run_start.
  destruct (Qleb (ReqsPerMinute (Config s)) 1) eqn:Er.
  - apply Qleb_le in Er. split; [discriminate | intros [H _]; lra].
  - apply Qleb_gt in Er.
    destruct (Qleb (TokensPerMinute (Config s)) 1) eqn:Et.
    + apply Qleb_le in Et. split; [discriminate | intros [_ H]; lra].
    + apply Qleb_gt in Et. split; auto.
Qed.

Lemma updateCapacity_Config now s : Config (updateCapacity now s) = Config s.
Proof. unfold updateCapacity. destruct (_ || _); reflexivity. Qed.

Lemma updateCapacity_LastReqTime now s : LastReqTime (updateCapacity now s) = now.
Proof. unfold updateCapacity. destruct (_ || _); reflexivity. Qed.

Lemma updateCapacity_ceiling now s :
  (RequestCapacity s <= ReqsPerMinute (Config s))%Q ->
  (TokenCapacity s <= TokensPerMinute (Config s))%Q ->
  (RequestCapacity (updateCapacity now s) <= ReqsPerMinute (Config s))%Q
  /\ (TokenCapacity (updateCapacity now s) <= TokensPerMinute (Config s))%Q.
Proof.
  intros Hr Ht. unfold updateCapacity. destruct (_ || _); simpl.
  - split; apply math_Min_le_r.
  - split; assumption.
Qed.

(** With a clock that does not run backwards, an update never lowers a
    capacity that is not negative. *)
Lemma updateCapacity_bounds now s :
  LastReqTime s <= now -> capacity_bounds s -> capacity_bounds (updateCapacity now s).
Proof.
  intros Hnow [[Hr0 Hr1] [Ht0 Ht1]].
  unfold capacity_bounds. rewrite updateCapacity_Config.
  destruct (updateCapacity_ceiling now s Hr1 Ht1) as [Cr Ct].
  split; split; try assumption.
  - unfold updateCapacity. destruct (_ || _); simpl; [| assumption].
    apply math_Min_glb; [| lra].
    assert (He : (0 <= time.Minutes (time.Sub now (LastReqTime s)))%Q)
      by (apply Minutes_nonneg; unfold time.Sub; lia).
    nra.
  - unfold updateCapacity. destruct (_ || _); simpl; [| assumption].
    apply math_Min_glb; [| lra].
    assert (He : (0 <= time.Minutes (time.Sub now (LastReqTime s)))%Q)
      by (apply Minutes_nonneg; unfold time.Sub; lia).
    nra.
Qed.

Lemma capacityTime_admissible (s : Scheduler) (request : ScheduledRequest) :
  (0 < ReqsPerMinute (Config s))%Q -> (0 < TokensPerMinute (Config s))%Q ->
  (Qleb (capacityTime s request) 0 = true <-> admissible s request).
Proof.
  intros Hr Ht. rewrite Qleb_le. unfold admissible, capacityTime, requestTime, tokensTime.
  split.
  - intro H.
    set (a := ((1 - RequestCapacity s) / ReqsPerMinute (Config s))%Q) in *.
    set (b := ((RequiredTokenCapacity request - TokenCapacity s)
               / TokensPerMinute (Config s))%Q) in *.
    pose proof (math_Max_ge_l (math_Max 0 a) (math_Max 0 b)) as H1.
    pose proof (math_Max_ge_r (math_Max 0 a) (math_Max 0 b)) as H2.
    pose proof (math_Max_ge_r 0 a) as H3.
    pose proof (math_Max_ge_r 0 b) as H4.
    assert (Ha : (a <= 0)%Q) by lra.
    assert (Hb : (b <= 0)%Q) by lra.
    apply Qdiv_nonpos in Ha; [| exact Hr].
    apply Qdiv_nonpos in Hb; [| exact Ht].
    split; lra.
  - intros [H1 H2].
    apply math_Max_lub; apply math_Max_lub; try apply Qle_refl;
      apply Qdiv_nonpos; try assumption; lra.
Qed.

Lemma capacityTime_nonneg (s : Scheduler) (request : ScheduledRequest) :
  (0 <= capacityTime s request)%Q.
Proof.
  unfold capacityTime, requestTime.
  eapply Qle_trans; [| apply math_Max_ge_l]. apply math_Max_ge_l.
Qed.

(** A sleep of the wait loop lasts a tenth of a second at least, and two
    seconds at most. *)
Lemma sleepTime_bounds (s : Scheduler) (request : ScheduledRequest) :
  time.Second / 10 <= sleepTime s request <= 2 * time.Second.
Proof.
  pose proof (capacityTime_nonneg s request) as H0.
  unfold sleepTime, epsilon.
  set (c := capacityTime s request) in *.
  assert (Hlo : (1 # 10 <= math_Min 2 (c + (1 # 10)))%Q) by (apply math_Min_glb; lra).
  pose proof (math_Min_le_l 2 (c + (1 # 10))) as Hhi.
  split.
  - apply of_float_ge; [| now vm_compute].
    change (inject_Z (time.Second / 10)) with (100000000 # 1)%Q.
    change (inject_Z time.Second) with (1000000000 # 1)%Q. lra.
  - apply of_float_le.
    + change (inject_Z time.Second) with (1000000000 # 1)%Q. lra.
    + change (inject_Z (2 * time.Second)) with (2000000000 # 1)%Q.
      change (inject_Z time.Second) with (1000000000 # 1)%Q. lra.
Qed.

Lemma updateCapacity_lower now s :
  let e := time.Minutes (time.Sub now (LastReqTime s)) in
  (math_Min (RequestCapacity s + e * ReqsPerMinute (Config s)) (ReqsPerMinute (Config s))
   <= RequestCapacity (updateCapacity now s))%Q
  /\ (math_Min (TokenCapacity s + e * TokensPerMinute (Config s)) (TokensPerMinute (Config s))
      <= TokenCapacity (updateCapacity now s))%Q.
Proof.
  intro e. unfold updateCapacity. fold e.
  destruct (Qltb (TokenCapacity s) (TokensPerMinute (Config s))) eqn:Et;
    destruct (Qltb (RequestCapacity s) (ReqsPerMinute (Config s))) eqn:Er; simpl;
    try (split; apply Qle_refl).
  apply Qltb_ge in Et. apply Qltb_ge in Er.
  split; (eapply Qle_trans; [apply math_Min_le_r | assumption]).
Qed.

(** What holds when [waitForCapacity] returns. *)
Lemma waitForCapacity_post fuel : forall lag i now s request s' t' ds,
  waitForCapacity fuel lag i now s request = Some (s', t', ds) ->
  (0 < ReqsPerMinute (Config s))%Q -> (0 < TokensPerMinute (Config s))%Q ->
  LastReqTime s <= now ->
  Config s' = Config s /\ LastReqTime s' = t' /\ now <= t'
  /\ admissible s' request
  /\ (capacity_bounds s -> capacity_bounds s')
  /\ Forall (fun d => time.Second / 10 <= d <= 2 * time.Second) ds
  /\ now + fold_right Z.add 0 ds <= t'.
Proof.
  induction fuel as [| fuel IH]; intros lag i now s request s' t' ds Hw Hr Ht Hnow.
  - discriminate.
  - simpl in Hw.
    destruct (Qleb (capacityTime (updateCapacity now s) request) 0) eqn:Ec.
    + injection Hw as <- <- <-.
      rewrite updateCapacity_Config, updateCapacity_LastReqTime.
      refine (conj eq_refl (conj eq_refl (conj _ (conj _ (conj _ (conj _ _)))))).
      * lia.
      * apply capacityTime_admissible in Ec; rewrite ?updateCapacity_Config; assumption.
      * apply updateCapacity_bounds; assumption.
      * constructor.
      * simpl. lia.
    + pose proof (sleepTime_bounds (updateCapacity now s) request) as Hd.
      set (d := sleepTime (updateCapacity now s) request) in *.
      assert (Hd0 : 0 <= d).
      { destruct Hd as [Hd _]. apply Z.le_trans with (2 := Hd). now vm_compute. }
      destruct (waitForCapacity fuel lag (S i) (now + d + Z.of_N (lag i))
                                (updateCapacity now s) request)
        as [[[s1 t1] ds1] |] eqn:Hrec; [| discriminate].
      injection Hw as <- <- <-.
      apply IH in Hrec; rewrite ?updateCapacity_Config, ?updateCapacity_LastReqTime;
        try assumption; try lia.
      destruct Hrec as (Hc & Hl & Hn & Ha & Hb & Hf & Hsum).
      rewrite updateCapacity_Config in Hc.
      refine (conj Hc (conj Hl (conj _ (conj Ha (conj _ (conj _ _)))))).
      * lia.
      * intro Hs. apply Hb, updateCapacity_bounds; assumption.
      * constructor; assumption.
      * simpl. lia.
Qed.

(** A capacity that needs [k+1] more sleeps to reach its ceiling needs [k]
    after an update and a sleep of a tenth of a second or more. *)
Lemma capacity_grows (cap ceiling e e' k updated : Q) :
  (0 <= ceiling)%Q -> (0 <= k)%Q -> (1 # 600 <= e')%Q ->
  (math_Min (cap + e * ceiling) ceiling <= updated)%Q ->
  (ceiling <= cap + (e + (k + 1) * (1 # 600)) * ceiling)%Q ->
  (ceiling <= updated + (e' + k * (1 # 600)) * ceiling)%Q.
Proof.
  intros Hc Hk He' Hup Hpot. unfold math_Min in Hup.
  destruct (Qleb (cap + e * ceiling) ceiling); nra.
Qed.

Lemma inject_Z_succ (n : nat) : (inject_Z (Z.of_nat (S n)) == inject_Z (Z.of_nat n) + 1)%Q.
Proof. rewrite Nat2Z.inj_succ. unfold Z.succ. rewrite inject_Z_plus. reflexivity. Qed.

Lemma sleep_is_a_tick (now d lag : Z) :
  100000000 <= d -> 0 <= lag ->
  (1 # 600 <= time.Minutes (time.Sub (now + d + lag)%Z now))%Q.
Proof.
  intros Hd Hlag.
  eapply Qle_trans; [| apply (Minutes_mono 100000000); unfold time.Sub; lia].
  rewrite Minutes_eq. vm_compute. discriminate.
Qed.

(** The loop of [waitForCapacity] ends.  Every pass that does not return
    sleeps a tenth of a second at least, so after [n] more sleeps the
    capacities have grown by [n/600] of their ceilings; the statement
    carries the number of sleeps still needed to fill both. *)
Lemma waitForCapacity_returns_within (n : nat) : forall fuel lag i now s request,
  (n < fuel)%nat ->
  (1 <= ReqsPerMinute (Config s))%Q -> (0 < TokensPerMinute (Config s))%Q ->
  (RequiredTokenCapacity request <= TokensPerMinute (Config s))%Q ->
  LastReqTime s <= now ->
  (ReqsPerMinute (Config s)
   <= RequestCapacity s
      + (time.Minutes (time.Sub now (LastReqTime s)) + inject_Z (Z.of_nat n) * (1 # 600))
        * ReqsPerMinute (Config s))%Q ->
  (TokensPerMinute (Config s)
   <= TokenCapacity s
      + (time.Minutes (time.Sub now (LastReqTime s)) + inject_Z (Z.of_nat n) * (1 # 600))
        * TokensPerMinute (Config s))%Q ->
  exists r, waitForCapacity fuel lag i now s request = Some r.
Proof.
  induction n as [| n IH]; intros fuel lag i now s request Hfuel Hr Ht Hreq Hnow Pr Pt;
    (destruct fuel as [| fuel]; [lia |]); simpl;
    destruct (Qleb (capacityTime (updateCapacity now s) request) 0) eqn:Ec;
    try (eexists; reflexivity).
  - (* no sleep left to wait for: the update filled both capacities *)
    exfalso.
    assert (Ha : admissible (updateCapacity now s) request).
    { destruct (updateCapacity_lower now s) as [Lr Lt]. cbv zeta in Lr, Lt.
      set (e := time.Minutes (time.Sub now (LastReqTime s))) in *.
      change (inject_Z (Z.of_nat 0)) with 0%Q in Pr, Pt.
      split.
      - eapply Qle_trans; [| exact Lr]. apply math_Min_glb; lra.
      - eapply Qle_trans; [| exact Lt]. apply math_Min_glb; lra. }
    apply capacityTime_admissible in Ha; rewrite ?updateCapacity_Config; try lra.
    congruence.
  - pose proof (sleepTime_bounds (updateCapacity now s) request) as [Hd _].
    set (d := sleepTime (updateCapacity now s) request) in *.
    change (time.Second / 10) with 100000000 in Hd.
    assert (Htick := sleep_is_a_tick now d (Z.of_N (lag i)) Hd (N2Z.is_nonneg _)).
    assert (Hk : (0 <= inject_Z (Z.of_nat n))%Q) by (apply inject_Z_nonneg; lia).
    rewrite inject_Z_succ in Pr, Pt.
    destruct (updateCapacity_lower now s) as [Lr Lt]. cbv zeta in Lr, Lt.
    destruct (IH fuel lag (S i) (now + d + Z.of_N (lag i)) (updateCapacity now s) request)
      as [[[s1 t1] ds1] Hrec];
      rewrite ?updateCapacity_Config, ?updateCapacity_LastReqTime; try assumption; try lia.
    + eapply capacity_grows; eauto. lra.
    + eapply capacity_grows; eauto. lra.
    + rewrite Hrec. eexists; reflexivity.
Qed.

(** From capacities that are not negative, 601 passes are enough. *)
Lemma waitForCapacity_returns fuel lag i now s request :
  (600 < fuel)%nat ->
  (1 <= ReqsPerMinute (Config s))%Q -> (0 < TokensPerMinute (Config s))%Q ->
  (RequiredTokenCapacity request <= TokensPerMinute (Config s))%Q ->
  LastReqTime s <= now ->
  (0 <= RequestCapacity s)%Q -> (0 <= TokenCapacity s)%Q ->
  exists r, waitForCapacity fuel lag i now s request = Some r.
Proof.
  intros Hfuel Hr Ht Hreq Hnow Hr0 Ht0.
  apply (waitForCapacity_returns_within 600); try assumption.
  - assert (He : (0 <= time.Minutes (time.Sub now (LastReqTime s)))%Q)
      by (apply Minutes_nonneg; unfold time.Sub; lia).
    change (inject_Z (Z.of_nat 600) * (1 # 600))%Q with (600 # 600)%Q. nra.
  - assert (He : (0 <= time.Minutes (time.Sub now (LastReqTime s)))%Q)
      by (apply Minutes_nonneg; unfold time.Sub; lia).
    change (inject_Z (Z.of_nat 600) * (1 # 600))%Q with (600 # 600)%Q. nra.
Qed.

Lemma allocate_bounds (s : Scheduler) (request : ScheduledRequest) :
  capacity_bounds s -> admissible s request ->
  (0 <= RequiredTokenCapacity request)%Q ->
  capacity_bounds (allocate s request).
Proof.
  intros [[Hr0 Hr1] [Ht0 Ht1]] [Ar At] Hreq.
  unfold capacity_bounds, allocate; simpl. repeat split; lra.
Qed.

(** One pass of [run] returns, and keeps the bounds. *)
Lemma run_pass_bounds fuel lag now s a :
  (600 < fuel)%nat -> run_start s = Started ->
  LastReqTime s <= now -> capacity_bounds s ->
  match a with
  | Received request => (0 <= RequiredTokenCapacity request)%Q
  | Timeout => True
  end ->
  exists p, run_pass fuel lag now s a = Some p
            /\ capacity_bounds (pass_scheduler p)
            /\ Config (pass_scheduler p) = Config s
            /\ LastReqTime (pass_scheduler p) <= pass_clock p.
Proof.
  intros Hfuel Hstart Hnow Hb Hcost.
  apply run_start_Started in Hstart. destruct Hstart as [Hr Ht].
  destruct a as [request |]; simpl.
  - destruct (Qltb (TokensPerMinute (Config s)) (RequiredTokenCapacity request)) eqn:Hbig.
    + eexists. split; [reflexivity |]. simpl. auto.
    + apply Qltb_ge in Hbig.
      destruct (waitForCapacity_returns fuel lag 0%nat now s request) as [[[s1 t1] ds] Hw];
        try assumption; try lra; try apply Hb.
      rewrite Hw.
      apply waitForCapacity_post in Hw; try assumption; try lra.
      destruct Hw as (Hc & Hl & Hn & Ha & Hbnd & _ & _).
      eexists. split; [reflexivity |]. simpl.
      split; [apply allocate_bounds; auto |]. split; [exact Hc | lia].
  - eexists. split; [reflexivity |]. simpl.
    split; [apply updateCapacity_bounds; assumption |].
    split; [apply updateCapacity_Config |]. rewrite updateCapacity_LastReqTime. lia.
Qed.

Lemma run_start_Config (s s' : Scheduler) :
  Config s' = Config s -> run_start s = Started -> run_start s' = Started.
Proof. unfold run_start. intros ->. auto. Qed.

(** The loop of [run] returns on every list of arrivals, and keeps the
    bounds. *)
Lemma run_loop_bounds fuel lags arrivals : forall k now s,
  (600 < fuel)%nat -> run_start s = Started ->
  LastReqTime s <= now -> capacity_bounds s ->
  Forall nonneg_cost arrivals ->
  exists s' t' sent, run_loop fuel lags k now s arrivals = Some (s', t', sent)
                     /\ capacity_bounds s' /\ LastReqTime s' <= t'.
Proof.
  induction arrivals as [| [waited a] rest IH]; intros k now s Hfuel Hstart Hnow Hb Hcost.
  - exists s, now, []. simpl. auto.
  - inversion Hcost as [| ? ? Ha Hrest]; subst. unfold nonneg_cost in Ha; simpl in Ha.
    cbn [run_loop].
    set (woke := select_at now waited a).
    assert (Hwoke : LastReqTime s <= woke).
    { unfold woke, select_at. destruct a; change (2 * time.Second) with 2000000000; lia. }
    destruct (run_pass_bounds fuel (lags k) woke s a) as (p & Hp & Hpb & Hpc & Hpl);
      try assumption.
    rewrite Hp.
    destruct (IH (S k) (pass_clock p) (pass_scheduler p)) as (s' & t' & sent & Hl & Hb' & Hl');
      try assumption.
    { apply (run_start_Config s); assumption. }
    rewrite Hl. eexists _, _, _. split; [reflexivity |]. auto.
Qed.

(** ** C5: the capacities stay within their bounds *)



(** ** C3: admission *)



(** ** C10: a reservation that is too large leaves the scheduler as it was *)

(** C10.  When the scheduler answers RequestTooLarge, which it does for
    every dequeued reservation with required_tokens > tokens_per_minute and
    for no other, its state is the state at the dequeue: request_capacity,
    token_capacity and last_update are unchanged and nothing is debited. *)
Theorem C10_too_large_leaves_state fuel lag now s request :
  ((TokensPerMinute (Config s) < RequiredTokenCapacity request)%Q ->
   run_pass fuel lag now s (Received request)
   = Some (mkPass s now (Some (ResponseChannel request, RequestTooLarge))))
  /\ (forall p id,
        run_pass fuel lag now s (Received request) = Some p ->
        pass_sent p = Some (id, RequestTooLarge) ->
        pass_scheduler p = s
        /\ (TokensPerMinute (Config s) < RequiredTokenCapacity request)%Q).
Proof.
  split.
  - intro Hbig. apply Qltb_lt in Hbig. simpl. rewrite Hbig. reflexivity.
  - intros p id Hp Hsent. simpl in Hp.
    destruct (Qltb (TokensPerMinute (Config s)) (RequiredTokenCapacity request)) eqn:Hbig.
    + injection Hp as <-. simpl. split; [reflexivity | apply Qltb_lt, Hbig].
    + destruct (waitForCapacity fuel lag 0 now s request) as [[[s1 t1] ds] |];
        [| discriminate].
      injection Hp as <-. simpl in Hsent. discriminate.
Qed.

(** C10 at a reservation of 70000 tokens, above the 60000 of the tests. *)
Lemma C10_too_large_leaves_state_witness :
  run_pass 1000 Fixtures.no_lag 5 Fixtures.drained (Received (mkScheduledRequest 1 70000))
  = Some (mkPass Fixtures.drained 5 (Some (1%nat, RequestTooLarge))).
Proof.
  apply (proj1 (C10_too_large_leaves_state 1000 Fixtures.no_lag 5 Fixtures.drained
                  (mkScheduledRequest 1 70000))).
  reflexivity.
Defined.

(** ** C1: the wait is not bounded by [MaxQueueWait] *)

(** No pass of [run] sends RateLimit. *)
Lemma run_pass_never_RateLimit fuel lag now s a p id :
  run_pass fuel lag now s a = Some p -> pass_sent p <> Some (id, RateLimit).
Proof.
  destruct a as [request |]; simpl.
  - destruct (Qltb (TokensPerMinute (Config s)) (RequiredTokenCapacity request)).
    + intros [= <-]. simpl. discriminate.
    + destruct (waitForCapacity fuel lag 0 now s request) as [[[s1 t1] ds] |];
        [| discriminate].
      intros [= <-]. simpl. discriminate.
  - intros [= <-]. simpl. discriminate.
Qed.

(** C1, on the code.  The test configuration allows a wait of one second.
    A reservation of 6000 tokens dequeued at time 0 by a scheduler whose
    tokens are spent is answered after more than six seconds, past the
    deadline plus a polling period of two seconds, and the answer is Ready,
    not RateLimit. *)
Theorem C1_wait_exceeds_deadline :
  exists s' t',
    run_pass 1000 Fixtures.no_lag 0 Fixtures.drained
             (Received (mkScheduledRequest 1 6000))
    = Some (mkPass s' t' (Some (1%nat, Ready)))
    /\ deadline (Config Fixtures.drained) 0 + 2 * time.Second < t'
    /\ 6 * time.Second <= t'.
Proof.
  eexists _, _. split; [vm_compute; reflexivity |].
  split; vm_compute; reflexivity || discriminate.
Qed.

(** ** C6: the sleep of the wait loop *)

(** C6, on the code.  With 600 tokens missing at 60000 tokens per minute
    the capacity gap is a hundredth of a minute.  The policy asks for a
    sleep of min(2 s, 0.6 s + 0.1 s) = 0.7 s; [waitForCapacity] adds the gap
    in minutes to epsilon as if it were in seconds and sleeps 0.11 s. *)
Theorem C6_sleep_takes_minutes_for_seconds :
  let s := updateCapacity 0 Fixtures.drained in
  let request := mkScheduledRequest 1 600 in
  (capacityTime s request == 1 # 100)%Q
  /\ sleepTime s request = 110000000
  /\ spec_sleepTime (capacityTime s request) = 700000000.
Proof.
  cbv zeta. repeat split; vm_compute; reflexivity.
Qed.

(** ** C7: the token estimator *)

Lemma wrap64_small (z : Z) : fits_int z -> wrap64 z = z.
Proof.
  unfold fits_int, wrap64. intro H. rewrite Z.mod_small; lia.
Qed.

Lemma wrap64_add_l (a b : Z) : wrap64 (wrap64 a + b) = wrap64 (a + b).
Proof.
  unfold wrap64. f_equal.
  replace ((a + 2 ^ 63) mod 2 ^ 64 - 2 ^ 63 + b + 2 ^ 63)
    with ((a + 2 ^ 63) mod 2 ^ 64 + b) by lia.
  rewrite Zplus_mod_idemp_l. f_equal. lia.
Qed.

Lemma wrap64_add_r (a b : Z) : wrap64 (a + wrap64 b) = wrap64 (a + b).
Proof. rewrite (Z.add_comm a), wrap64_add_l. f_equal. lia. Qed.

Lemma wrap64_idem (a : Z) : wrap64 (wrap64 a) = wrap64 a.
Proof.
  replace (wrap64 a) with (wrap64 a + 0) at 1 by lia.
  rewrite wrap64_add_l. f_equal. lia.
Qed.

(** The switch on the model, for a name of the chat families, after the
    unpinned names were replaced. *)
Lemma overhead_family (model : string) :
  chat_family model = true ->
  overhead (if String.eqb model "gpt-3.5-turbo" then GPT_3_5_DEFAULT
            else if String.eqb model "gpt-4" then GPT_4_DEFAULT else model)
  = Some (per_message model, per_name model).
Proof.
  intro Hfam. unfold per_message, per_name.
  destruct (String.eqb model "gpt-3.5-turbo") eqn:E1.
  - apply String.eqb_eq in E1. subst. reflexivity.
  - destruct (String.eqb model "gpt-4") eqn:E2.
    + apply String.eqb_eq in E2. subst. reflexivity.
    + unfold overhead. destruct (String.eqb model "gpt-3.5-turbo-0301"); [reflexivity |].
      fold (chat_family model). rewrite Hfam.
      destruct (_ || _); reflexivity.
Qed.

(** One turn of the loop adds the cost of its message, modulo 2^64. *)
Lemma count_message_cost (tkm : string -> list Z) (model : string) (acc x : Z)
    (m : openai.ChatCompletionMessage) :
  wrap64 (count_message tkm (per_message model) (per_name model) acc m + x)
  = wrap64 (acc + spec_message_cost tkm model m + x).
Proof.
  unfold count_message, spec_message_cost.
  destruct (String.eqb (openai.Name m) ""); simpl negb; cbv iota;
    repeat (rewrite wrap64_add_l || rewrite <- Z.add_assoc); f_equal; lia.
Qed.

Lemma fold_count_message (tkm : string -> list Z) (model : string)
    (l : list openai.ChatCompletionMessage) : forall acc x,
  wrap64 (fold_left (count_message tkm (per_message model) (per_name model)) l acc + x)
  = wrap64 (acc + fold_right Z.add 0 (map (spec_message_cost tkm model) l) + x).
Proof.
  induction l as [| m l IH]; intros acc x; simpl.
  - f_equal. lia.
  - rewrite IH.
    replace (count_message tkm (per_message model) (per_name model) acc m
             + fold_right Z.add 0 (map (spec_message_cost tkm model) l) + x)
      with (count_message tkm (per_message model) (per_name model) acc m
            + (fold_right Z.add 0 (map (spec_message_cost tkm model) l) + x)) by lia.
    rewrite count_message_cost. f_equal. lia.
Qed.

(** The estimator computes the cost of the specification in Go's [int]. *)
Lemma TokensForRequest_chat_cost EncodingForModel r tkm :
  EncodingForModel (openai.Model r) = Some tkm ->
  chat_family (openai.Model r) = true ->
  ChatCompletionRequest_TokensForRequest EncodingForModel r
  = Ok (wrap64 (spec_chat_cost tkm r)).
Proof.
  intros Henc Hfam. unfold ChatCompletionRequest_TokensForRequest.
  rewrite Henc. cbv zeta. rewrite (overhead_family _ Hfam).
  f_equal. unfold spec_chat_cost, per_request.
  set (nm := (if openai.N r <? 1 then 1 else openai.N r)
             * (if openai.MaxTokens r <? 1 then 15 else openai.MaxTokens r)).
  rewrite wrap64_add_r, wrap64_add_l, <- Z.add_assoc.
  rewrite fold_count_message. f_equal. lia.
Qed.



(** ** The dispatcher *)

Lemma http_Error_status (w : ResponseWriter) (msg : string) (code : Z) :
  rw_status w = None -> rw_status (http_Error w msg code) = Some code.
Proof.
  intro H. unfold http_Error, Write, WriteHeader. rewrite H. reflexivity.
Qed.

Lemma http_Error_status_kept (w : ResponseWriter) (msg : string) (code c : Z) :
  rw_status w = Some c -> rw_status (http_Error w msg code) = Some c.
Proof.
  intro H. unfold http_Error, Write, WriteHeader. rewrite H. simpl. rewrite H. exact H.
Qed.

Section DispatcherProperties.
Local Open Scope string_scope.

Variable EncodingForModel : string -> option (string -> list Z).
Variable json : JSON.
Variable URL_Parse : URL -> string -> result URL.
Variable client_Do : HttpRequest -> result HttpResponse.


(** On Ready the handler goes on to forward. *)
Lemma after_verdict_Ready o model w r :
  after_verdict URL_Parse client_Do o model w r Ready = forward_and_report URL_Parse client_Do o w r.
Proof. reflexivity. Qed.

(** On RateLimit the handler answers 429 and returns. *)
Lemma after_verdict_RateLimit o model w r :
  rw_status w = None ->
  let s := after_verdict URL_Parse client_Do o model w r RateLimit in
  rw_status (served_response s) = Some StatusTooManyRequests /\ served_upstream s = [].
Proof.
  intro H. split; [exact (http_Error_status w _ _ H) | reflexivity].
Qed.

(** On RequestTooLarge the handler writes the 400 and, there being no
    [return] in that branch, goes on to forward with the writer it wrote
    to. *)
Lemma after_verdict_RequestTooLarge o model w r :
  after_verdict URL_Parse client_Do o model w r RequestTooLarge
  = forward_and_report URL_Parse client_Do o
      (http_Error w ("LLProxy: Request too large for model '" ++ model ++ "'")
                  StatusBadRequest) r.
Proof. reflexivity. Qed.

(** [forwardRequest] hands one request to the client unless the path has
    fewer than two segments or the base URL does not parse. *)
Lemma forwardRequest_sends URLBase w r target :
  (2 <= List.length (strings.Split (Path (url_reparse (req_URL r))) "/"))%nat ->
  URL_Parse (url_reparse (req_URL r)) URLBase = Ok target ->
  exists w' request err, forwardRequest URL_Parse client_Do URLBase w r = (w', [request], err).
Proof.
  intros Hlen Hparse. unfold forwardRequest.
  destruct (Nat.ltb_spec (List.length (strings.Split (Path (url_reparse (req_URL r))) "/")) 2);
    [lia |].
  rewrite Hparse.
  destruct (client_Do _); eexists _, _, _; reflexivity.
Qed.
End DispatcherProperties.

(** The handler tests of the repository, run on the model. *)
Example TestGetHandler_BadRoute :
  Fixtures.test_serve (Fixtures.CreateOpenAI Fixtures.empty_chan) 1
                      (Fixtures.POST "/openai/badroute" "")
  = Responded (mkServed (mkResponseWriter (Some StatusNotFound) "not found")
      [mkHttpRequest "POST" (mkURL "https" "fake-testing-host.com" "/badroute" "") ""]).
Proof. vm_compute. reflexivity. Qed.

Example TestGetChatHandler_NoBody :
  Fixtures.test_serve (Fixtures.CreateOpenAI Fixtures.empty_chan) 1
                      (Fixtures.POST "/openai/v1/chat/completions" "")
  = Responded (mkServed (mkResponseWriter (Some StatusBadRequest)
      ("LLProxy: error reading request body, /openai/v1/chat/completions: "
       ++ "unexpected end of JSON input" ++ String "010" "")) []).
Proof. vm_compute. reflexivity. Qed.

Example TestGetChatHandler_Good :
  exists c k,
    Fixtures.test_serve (Fixtures.CreateOpenAI Fixtures.empty_chan) 1
                        (Fixtures.POST "/openai/v1/chat/completions" Fixtures.test_chat_body)
    = AwaitingVerdict Fixtures.TEST_MODEL c k
    /\ served_response (k Ready) = mkResponseWriter (Some StatusOK) "dummy response".
Proof. eexists _, _. split; vm_compute; reflexivity. Qed.

(** ** C2: a full arrivals buffer *)

(** C2 as stated fails.  The channel of the test scheduler holds its ten
    reservations; a chat completion submitted then is not answered 429: the
    handler is parked in its send, with nothing written. *)
Lemma C2_full_buffer_no_429 :
  let p := Fixtures.test_serve (Fixtures.CreateOpenAI Fixtures.full_chan) 7
             (Fixtures.POST "/openai/v1/chat/completions" Fixtures.test_chat_body) in
  Z.of_nat (List.length (chan_buf Fixtures.full_chan)) = MaxQueueSize Fixtures.test_config
  /\ p = BlockedInSend Fixtures.TEST_MODEL (mkScheduledRequest 7 23)
  /\ ~ rejected_429 p.
Proof.
  cbv zeta. split; [reflexivity |]. split; [vm_compute; reflexivity |].
  intros (s & Hs & _). vm_compute in Hs. discriminate.
Qed.

(** C2, amended.  A request that reaches the send on the channel of its
    scheduler while the buffer holds [MaxQueueSize] reservations, the
    scheduler not being parked in its receive, blocks there: the handler
    has written no response (no 429), and the reservation is not in the
    buffer.  With room in the buffer the reservation is enqueued last and
    the handler waits for its verdict. *)
Theorem C2_full_buffer_blocks EncodingForModel json URL_Parse client_Do
    o id r model scheduler request k :
  GetHandler EncodingForModel json URL_Parse client_Do o id new_ResponseWriter r
  = Sending model scheduler request k ->
  chan_receiver_parked (Requests scheduler) = false ->
  (chan_cap (Requests scheduler) <= Z.of_nat (List.length (chan_buf (Requests scheduler)))
   -> serve EncodingForModel json URL_Parse client_Do o id r = BlockedInSend model request
      /\ chan_send (Requests scheduler) request = None)
  /\ (Z.of_nat (List.length (chan_buf (Requests scheduler))) < chan_cap (Requests scheduler)
      -> serve EncodingForModel json URL_Parse client_Do o id r
         = AwaitingVerdict model
             (mkChan (chan_buf (Requests scheduler) ++ [request])
                     (chan_cap (Requests scheduler)) false) k).
Proof.
  intros Hh Hparked. unfold serve. rewrite Hh. unfold chan_send. rewrite Hparked.
  split; intro Hlen.
  - destruct (Z.ltb_spec (Z.of_nat (List.length (chan_buf (Requests scheduler))))
                         (chan_cap (Requests scheduler))); [lia | auto].
  - destruct (Z.ltb_spec (Z.of_nat (List.length (chan_buf (Requests scheduler))))
                         (chan_cap (Requests scheduler))); [reflexivity | lia].
Qed.

(** C2 amended, at the full channel of the test scheduler. *)
Lemma C2_full_buffer_blocks_witness :
  Fixtures.test_serve (Fixtures.CreateOpenAI Fixtures.full_chan) 7
    (Fixtures.POST "/openai/v1/chat/completions" Fixtures.test_chat_body)
  = BlockedInSend Fixtures.TEST_MODEL (mkScheduledRequest 7 23).
Proof.
  refine (proj1 (proj1 (C2_full_buffer_blocks
            Fixtures.test_EncodingForModel Fixtures.test_json Fixtures.test_URL_Parse
            Fixtures.MockHttpClient_Do (Fixtures.CreateOpenAI Fixtures.full_chan) 7
            (Fixtures.POST "/openai/v1/chat/completions" Fixtures.test_chat_body)
            Fixtures.TEST_MODEL
            (mkSchedulerRef (initScheduler 0 Fixtures.test_config) Fixtures.full_chan)
            (mkScheduledRequest 7 23) _ _ _) _)).
  - vm_compute. reflexivity.
  - reflexivity.
  - vm_compute. discriminate.
Defined.

(** ** C4: what the handler does with each verdict *)


(** ** C8: image requests *)




(** With a scheduler named DALL-E 2 the handler calls [TokensForRequest] on
    the nil request that the parser returned, and panics. *)
Remark images_with_scheduler_panic EncodingForModel json URL_Parse client_Do o id w r sched :
  ParseRequest json r = Returns ("DALL-E 2"%string, None, None) ->
  SchedulerMap_get (schedulers o) "DALL-E 2" = Some sched ->
  exists msg,
    GetHandler EncodingForModel json URL_Parse client_Do o id w r = Panicked msg.
Proof.
  intros Hp Hs. unfold GetHandler. rewrite Hp. simpl. rewrite Hs. eexists. reflexivity.
Qed.

(** ** C9: the path sent upstream *)








(** ** The costs that the dispatcher submits *)

Lemma len_nonneg (l : list Z) : 0 <= len l.
Proof. unfold len. lia. Qed.

Lemma spec_message_cost_ge tkm model m : 3 <= spec_message_cost tkm model m.
Proof.
  unfold spec_message_cost, per_message, per_name.
  pose proof (len_nonneg (tkm (openai.Content m))).
  pose proof (len_nonneg (tkm (openai.Role m))).
  pose proof (len_nonneg (tkm (openai.Name m))).
  destruct (String.eqb model "gpt-3.5-turbo-0301"), (String.eqb (openai.Name m) ""); lia.
Qed.

Lemma spec_chat_cost_pos tkm r : 0 < spec_chat_cost tkm r.
Proof.
  unfold spec_chat_cost, per_request.
  assert (Hsum : 0 <= fold_right Z.add 0
                        (map (spec_message_cost tkm (openai.Model r)) (openai.Messages r))).
  { induction (openai.Messages r) as [| m l IH]; simpl; [lia |].
    pose proof (spec_message_cost_ge tkm (openai.Model r) m). lia. }
  destruct (Z.ltb_spec (openai.N r) 1), (Z.ltb_spec (openai.MaxTokens r) 1); nia.
Qed.

Lemma overhead_Some_family (model : string) p :
  overhead (if String.eqb model "gpt-3.5-turbo" then GPT_3_5_DEFAULT
            else if String.eqb model "gpt-4" then GPT_4_DEFAULT else model) = Some p ->
  chat_family model = true.
Proof.
  destruct (String.eqb model "gpt-3.5-turbo") eqn:E1;
    [apply String.eqb_eq in E1; subst; reflexivity |].
  destruct (String.eqb model "gpt-4") eqn:E2;
    [apply String.eqb_eq in E2; subst; reflexivity |].
  unfold overhead.
  repeat match goal with
         | |- context [String.eqb model ?c] =>
             let E := fresh "E" in
             destruct (String.eqb model c) eqn:E;
             [apply String.eqb_eq in E; subst; reflexivity |]
         end.
  simpl. fold (chat_family model). destruct (chat_family model); [reflexivity | discriminate].
Qed.

Lemma TokensForRequest_nonneg EncodingForModel request tokens :
  TokensForRequest EncodingForModel request = Ok tokens ->
  (forall r tkm, request = ReqChatCompletion r ->
                 EncodingForModel (openai.Model r) = Some tkm ->
                 fits_int (spec_chat_cost tkm r)) ->
  0 <= tokens.
Proof.
  intros H Hfit. destruct request as [a | r | c | e | d]; simpl in H;
    try (injection H as <-; lia).
  destruct (EncodingForModel (openai.Model r)) as [tkm |] eqn:Henc.
  - assert (Hfam : chat_family (openai.Model r) = true).
    { unfold ChatCompletionRequest_TokensForRequest in H. rewrite Henc in H. cbv zeta in H.
      destruct (overhead _) as [p |] eqn:Ho; [| discriminate].
      apply (overhead_Some_family _ p Ho). }
    rewrite (TokensForRequest_chat_cost _ _ _ Henc Hfam) in H. injection H as <-.
    rewrite wrap64_small by (apply (Hfit r tkm); auto).
    pose proof (spec_chat_cost_pos tkm r). lia.
  - unfold ChatCompletionRequest_TokensForRequest in H. rewrite Henc in H. discriminate.
Qed.

Lemma GetHandler_Sending EncodingForModel json URL_Parse client_Do o id w r
    model scheduler sreq k :
  GetHandler EncodingForModel json URL_Parse client_Do o id w r
  = Sending model scheduler sreq k ->
  exists request tokens,
    ParseRequest json r = Returns (model, Some request, None)
    /\ SchedulerMap_get (schedulers o) model = Some scheduler
    /\ TokensForRequest EncodingForModel request = Ok tokens
    /\ sreq = mkScheduledRequest id (inject_Z tokens)
    /\ (1 <= ReqsPerMinute (Config (ref_scheduler scheduler)))%Q
    /\ (inject_Z tokens <= TokensPerMinute (Config (ref_scheduler scheduler)))%Q
    /\ k = after_verdict URL_Parse client_Do o model w r.
Proof.
  unfold GetHandler.
  destruct (ParseRequest json r) as [[[m request] [err |]] | msg]; try discriminate.
  destruct (negb (String.eqb m "")); [| discriminate].
  destruct (SchedulerMap_get (schedulers o) m) as [s |] eqn:Hs; [| discriminate].
  destruct request as [request |]; [| discriminate].
  destruct (TokensForRequest EncodingForModel request) as [tokens | e] eqn:Htok;
    [| discriminate].
  destruct (Qltb (ReqsPerMinute (Config (ref_scheduler s))) 1) eqn:Hr; [discriminate |].
  destruct (Qltb (TokensPerMinute (Config (ref_scheduler s))) (inject_Z tokens)) eqn:Ht;
    [discriminate |].
  simpl. intros [= <- <- <- <-].
  apply Qltb_ge in Hr. apply Qltb_ge in Ht.
  exists request, tokens. repeat split; auto.
Qed.


(** A reservation that the dispatcher submits carries the estimate of its
    request, which passed the pre-check; it is not negative unless the
    estimate overflowed Go's [int]. *)
Lemma submitted_cost_bounds EncodingForModel json URL_Parse client_Do o id w r
    model scheduler sreq k :
  GetHandler EncodingForModel json URL_Parse client_Do o id w r
  = Sending model scheduler sreq k ->
  (forall cr tkm, ParseRequest json r = Returns (model, Some (ReqChatCompletion cr), None) ->
                  EncodingForModel (openai.Model cr) = Some tkm ->
                  fits_int (spec_chat_cost tkm cr)) ->
  (0 <= RequiredTokenCapacity sreq)%Q
  /\ (RequiredTokenCapacity sreq <= TokensPerMinute (Config (ref_scheduler scheduler)))%Q.
Proof.
  intros Hh Hfit.
  apply GetHandler_Sending in Hh.
  destruct Hh as (request & tokens & Hparse & _ & Htok & -> & _ & Htpm & _).
  simpl. split; [| exact Htpm].
  apply inject_Z_nonneg.
  apply (TokensForRequest_nonneg EncodingForModel request tokens Htok).
  intros cr tkm -> Henc. apply (Hfit cr tkm); assumption.
Qed.

(** ** Sanity of the string functions against Go's *)

Example Split_route : strings.Split "/r/a/b" "/" = [""; "r"; "a"; "b"]%string.
Proof. reflexivity. Qed.

Example Split_trailing : strings.Split "/r/" "/" = [""; "r"; ""]%string.
Proof. reflexivity. Qed.

Example Split_empty : strings.Split "" "/" = [""]%string.
Proof. reflexivity. Qed.

Example HasSuffix_chat :
  strings.HasSuffix "/openai/v1/chat/completions" "/v1/chat/completions" = true
  /\ strings.HasSuffix "/openai/v1/chat/completions" "/v1/completions" = false.
Proof. split; reflexivity. Qed.

Example Contains_images :
  strings.Contains "/openai/v1/images/generations" "/v1/images" = true
  /\ strings.Contains "/openai/v1/images/generations" "/v1/files" = false.
Proof. split; reflexivity. Qed.

(** A path of one segment, /openai, splits in two pieces and is forwarded,
    with the path / on the wire. *)
Example single_segment_is_forwarded :
  exists s request,
    Fixtures.test_serve (Fixtures.CreateOpenAI Fixtures.empty_chan) 1
                        (Fixtures.POST "/openai" "")
    = Responded s
    /\ served_upstream s = [request]
    /\ wire_path (req_URL request) = "/"%string.
Proof. eexists _, _. repeat split; vm_compute; reflexivity. Qed.

(** * Further properties of the scheduler *)



Lemma math_Min_eq_l (a b : Q) : (a <= b)%Q -> (math_Min a b == a)%Q.
Proof.
  intro H. unfold math_Min. destruct (Qleb a b) eqn:E; [reflexivity |].
  apply Qleb_gt in E. apply Qle_antisym; lra.
Qed.







(** ** The wait loop *)

(** With both capacities due to be full at [now], the update makes the
    reservation admissible. *)
Lemma update_fills (now : time.Time) (s : Scheduler) (request : ScheduledRequest) :
  (1 <= ReqsPerMinute (Config s))%Q -> (0 < TokensPerMinute (Config s))%Q ->
  (RequiredTokenCapacity request <= TokensPerMinute (Config s))%Q ->
  (ReqsPerMinute (Config s)
   <= RequestCapacity s
      + time.Minutes (time.Sub now (LastReqTime s)) * ReqsPerMinute (Config s))%Q ->
  (TokensPerMinute (Config s)
   <= TokenCapacity s
      + time.Minutes (time.Sub now (LastReqTime s)) * TokensPerMinute (Config s))%Q ->
  Qleb (capacityTime (updateCapacity now s) request) 0 = true.
Proof.
  intros Hr Ht Hreq Pr Pt.
  apply capacityTime_admissible; rewrite ?updateCapacity_Config; try lra.
  destruct (updateCapacity_lower now s) as [Lr Lt]. cbv zeta in Lr, Lt.
  split.
  - eapply Qle_trans; [| exact Lr]. apply math_Min_glb; lra.
  - eapply Qle_trans; [| exact Lt]. apply math_Min_glb; lra.
Qed.

(** The loop sleeps at most as often as the capacities need tenths of a
    second to fill. *)
Lemma waitForCapacity_sleeps_within (n : nat) : forall fuel lag i now s request s' t' ds,
  waitForCapacity fuel lag i now s request = Some (s', t', ds) ->
  (1 <= ReqsPerMinute (Config s))%Q -> (0 < TokensPerMinute (Config s))%Q ->
  (RequiredTokenCapacity request <= TokensPerMinute (Config s))%Q ->
  LastReqTime s <= now ->
  (ReqsPerMinute (Config s)
   <= RequestCapacity s
      + (time.Minutes (time.Sub now (LastReqTime s)) + inject_Z (Z.of_nat n) * (1 # 600))
        * ReqsPerMinute (Config s))%Q ->
  (TokensPerMinute (Config s)
   <= TokenCapacity s
      + (time.Minutes (time.Sub now (LastReqTime s)) + inject_Z (Z.of_nat n) * (1 # 600))
        * TokensPerMinute (Config s))%Q ->
  (List.length ds <= n)%nat.
Proof.
  induction n as [| n IH]; intros fuel lag i now s request s' t' ds Hw Hr Ht Hreq Hnow Pr Pt;
    (destruct fuel as [| fuel]; [discriminate |]); simpl in Hw;
    destruct (Qleb (capacityTime (updateCapacity now s) request) 0) eqn:Ec;
    try (injection Hw as <- <- <-; simpl; lia).
  - exfalso.
    change (inject_Z (Z.of_nat 0)) with 0%Q in Pr, Pt.
    rewrite update_fills in Ec; try assumption; try discriminate; lra.
  - pose proof (sleepTime_bounds (updateCapacity now s) request) as [Hd _].
    set (d := sleepTime (updateCapacity now s) request) in *.
    change (time.Second / 10) with 100000000 in Hd.
    destruct (waitForCapacity fuel lag (S i) (now + d + Z.of_N (lag i))
                              (updateCapacity now s) request)
      as [[[s1 t1] ds1] |] eqn:Hrec; [| discriminate].
    injection Hw as <- <- <-. simpl. apply le_n_S.
    assert (Htick := sleep_is_a_tick now d (Z.of_N (lag i)) Hd (N2Z.is_nonneg _)).
    assert (Hk : (0 <= inject_Z (Z.of_nat n))%Q) by (apply inject_Z_nonneg; lia).
    rewrite inject_Z_succ in Pr, Pt.
    destruct (updateCapacity_lower now s) as [Lr Lt]. cbv zeta in Lr, Lt.
    eapply IH; [exact Hrec | ..];
      rewrite ?updateCapacity_Config, ?updateCapacity_LastReqTime; try assumption; try lia.
    + eapply capacity_grows; eauto. lra.
    + eapply capacity_grows; eauto. lra.
Qed.

(** The clock when the loop returns: the sleeps and their lags, added. *)
Lemma waitForCapacity_clock fuel : forall lag i now s request s' t' ds,
  waitForCapacity fuel lag i now s request = Some (s', t', ds) ->
  t' = now + fold_right Z.add 0 ds + lags_sum lag i (List.length ds).
Proof.
  induction fuel as [| fuel IH]; intros lag i now s request s' t' ds Hw; [discriminate |].
  simpl in Hw.
  destruct (Qleb (capacityTime (updateCapacity now s) request) 0).
  - injection Hw as <- <- <-. simpl. lia.
  - destruct (waitForCapacity fuel lag (S i) _ (updateCapacity now s) request)
      as [[[s1 t1] ds1] |] eqn:Hrec; [| discriminate].
    injection Hw as <- <- <-. apply IH in Hrec. simpl. lia.
Qed.

(** Bounded wait.  For a started scheduler with capacities that are not
    negative and a reservation that is not too large, [waitForCapacity]
    returns after at most 600 sleeps, each between a tenth of a second and
    two seconds; the clock on return is the clock on entry plus the sleeps
    and their lags; and when the first update already gives the capacity,
    the function returns at once, without a sleep. *)
Theorem waitForCapacity_bounded_wait fuel lag i now s request :
  (600 < fuel)%nat ->
  (1 <= ReqsPerMinute (Config s))%Q -> (0 < TokensPerMinute (Config s))%Q ->
  (RequiredTokenCapacity request <= TokensPerMinute (Config s))%Q ->
  LastReqTime s <= now ->
  (0 <= RequestCapacity s)%Q -> (0 <= TokenCapacity s)%Q ->
  exists s' t' ds,
    waitForCapacity fuel lag i now s request = Some (s', t', ds)
    /\ (List.length ds <= 600)%nat
    /\ Forall (fun d => time.Second / 10 <= d <= 2 * time.Second) ds
    /\ t' = now + fold_right Z.add 0 ds + lags_sum lag i (List.length ds)
    /\ (admissible (updateCapacity now s) request -> ds = [] /\ t' = now).
Proof.
  intros Hfuel Hr Ht Hreq Hnow Hr0 Ht0.
  destruct (waitForCapacity_returns fuel lag i now s request) as [[[s' t'] ds] Hw];
    try assumption.
  exists s', t', ds. split; [exact Hw |].
  assert (He : (0 <= time.Minutes (time.Sub now (LastReqTime s)))%Q)
    by (apply Minutes_nonneg; unfold time.Sub; lia).
  split.
  { apply (waitForCapacity_sleeps_within 600 _ _ _ _ _ _ _ _ _ Hw); try assumption.
    - change (inject_Z (Z.of_nat 600) * (1 # 600))%Q with (600 # 600)%Q. nra.
    - change (inject_Z (Z.of_nat 600) * (1 # 600))%Q with (600 # 600)%Q. nra. }
  split.
  { apply waitForCapacity_post in Hw; try assumption; try lra. tauto. }
  split.
  { apply (waitForCapacity_clock _ _ _ _ _ _ _ _ _ Hw). }
  intro Ha.
  apply capacityTime_admissible in Ha; rewrite ?updateCapacity_Config; try lra.
  destruct fuel as [| fuel]; [lia |]. simpl in Hw. rewrite Ha in Hw.
  injection Hw as <- <- <-. auto.
Qed.

Lemma waitForCapacity_bounded_wait_witness :
  exists s' t' ds,
    waitForCapacity 1000 Fixtures.no_lag 0 0 Fixtures.drained (mkScheduledRequest 1 6000)
    = Some (s', t', ds)
    /\ (List.length ds <= 600)%nat.
Proof.
  destruct (waitForCapacity_bounded_wait 1000 Fixtures.no_lag 0 0 Fixtures.drained
              (mkScheduledRequest 1 6000)) as (s' & t' & ds & Hw & Hlen & _).
  - lia.
  - vm_compute. discriminate.
  - reflexivity.
  - vm_compute. discriminate.
  - simpl. lia.
  - vm_compute. discriminate.
  - vm_compute. discriminate.
  - exists s', t', ds. split; assumption.
Defined.

(** ** Whole runs of the scheduler *)

Lemma waitForCapacity_Config fuel : forall lag i now s request s' t' ds,
  waitForCapacity fuel lag i now s request = Some (s', t', ds) -> Config s' = Config s.
Proof.
  induction fuel as [| fuel IH]; intros lag i now s request s' t' ds Hw; [discriminate |].
  simpl in Hw.
  destruct (Qleb (capacityTime (updateCapacity now s) request) 0).
  - injection Hw as <- <- <-. apply updateCapacity_Config.
  - destruct (waitForCapacity fuel lag (S i) _ (updateCapacity now s) request)
      as [[[s1 t1] ds1] |] eqn:Hrec; [| discriminate].
    injection Hw as <- <- <-. apply IH in Hrec. rewrite Hrec. apply updateCapacity_Config.
Qed.

(** What a pass of [run] sends depends on the arrival alone. *)
Lemma run_pass_sent fuel lag now s a p :
  run_pass fuel lag now s a = Some p ->
  Config (pass_scheduler p) = Config s
  /\ pass_sent p = match a with
                   | Received request =>
                       Some (ResponseChannel request, verdict_for (Config s) request)
                   | Timeout => None
                   end.
Proof.
  destruct a as [request |]; simpl; unfold verdict_for.
  - destruct (Qltb (TokensPerMinute (Config s)) (RequiredTokenCapacity request)).
    + intros [= <-]. simpl. auto.
    + destruct (waitForCapacity fuel lag 0 now s request) as [[[s1 t1] ds] |] eqn:Hw;
        [| discriminate].
      intros [= <-]. simpl. split; [| reflexivity].
      apply (waitForCapacity_Config _ _ _ _ _ _ _ _ _ Hw).
  - intros [= <-]. simpl. split; [apply updateCapacity_Config | reflexivity].
Qed.

(** One verdict for each reservation, in the order of arrival.  Whatever
    the clock does, a run of the scheduler sends exactly one verdict on the
    channel of each reservation it received, in the order it received
    them, and none for a timeout; the verdict is RequestTooLarge when the
    reservation asks for more than [TokensPerMinute] and Ready otherwise.
    A started scheduler within its bounds does complete every run. *)
Theorem run_loop_verdicts fuel lags arrivals : forall k now s,
  (forall s' t' sent,
     run_loop fuel lags k now s arrivals = Some (s', t', sent) ->
     sent = expected_verdicts (Config s) arrivals /\ Config s' = Config s)
  /\ ((600 < fuel)%nat -> run_start s = Started ->
      LastReqTime s <= now -> capacity_bounds s ->
      Forall nonneg_cost arrivals ->
      exists s' t',
        run_loop fuel lags k now s arrivals
        = Some (s', t', expected_verdicts (Config s) arrivals)).
Proof.
  assert (Hpartial : forall k now s s' t' sent,
             run_loop fuel lags k now s arrivals = Some (s', t', sent) ->
             sent = expected_verdicts (Config s) arrivals /\ Config s' = Config s).
  { induction arrivals as [| [waited a] rest IH]; intros k now s s' t' sent Hl.
    - injection Hl as <- <- <-. auto.
    - cbn [run_loop] in Hl.
      destruct (run_pass fuel (lags k) (select_at now waited a) s a) as [p |] eqn:Hp;
        [| discriminate].
      destruct (run_loop fuel lags (S k) (pass_clock p) (pass_scheduler p) rest)
        as [[[s1 t1] sent1] |] eqn:Hrest; [| discriminate].
      injection Hl as <- <- <-.
      apply run_pass_sent in Hp. destruct Hp as [Hc Hs].
      apply IH in Hrest. destruct Hrest as [-> Hc1]. rewrite Hc in *.
      split; [| exact Hc1]. rewrite Hs. destruct a; reflexivity. }
  intros k now s. split; [apply Hpartial |].
  intros Hfuel Hstart Hnow Hb Hcost.
  destruct (run_loop_bounds fuel lags arrivals k now s Hfuel Hstart Hnow Hb Hcost)
    as (s' & t' & sent & Hl & _).
  exists s', t'. rewrite Hl. apply Hpartial in Hl. destruct Hl as [-> _]. reflexivity.
Qed.

Lemma run_loop_verdicts_witness :
  exists s' t',
    run_loop 1000 (fun _ => Fixtures.no_lag) 0 0 (initScheduler 0 Fixtures.test_config)
             [(0%N, Received (mkScheduledRequest 1 6000));
              (5%N, Timeout);
              (0%N, Received (mkScheduledRequest 2 70000))]
    = Some (s', t', [(1%nat, Ready); (2%nat, RequestTooLarge)]).
Proof.
  apply (proj2 (run_loop_verdicts 1000 (fun _ => Fixtures.no_lag)
                  [(0%N, Received (mkScheduledRequest 1 6000));
                   (5%N, Timeout);
                   (0%N, Received (mkScheduledRequest 2 70000))]
                  0%nat 0 (initScheduler 0 Fixtures.test_config))).
  - lia.
  - reflexivity.
  - simpl. lia.
  - repeat split; vm_compute; discriminate.
  - repeat constructor; vm_compute; discriminate.
Defined.









(** ** Suffixes *)


Lemma length_append (a b : string) :
  String.length (a ++ b) = (String.length a + String.length b)%nat.
Proof. induction a as [| x a IH]; simpl; [reflexivity | rewrite IH; reflexivity]. Qed.

Lemma substring_skip (pre s : string) (k m : nat) :
  String.substring (String.length pre + k) m (pre ++ s) = String.substring k m s.
Proof. induction pre as [| x pre IH]; simpl; [reflexivity | exact IH]. Qed.

Lemma substring_split (n : nat) : forall s,
  (n <= String.length s)%nat ->
  s = (String.substring 0 n s ++ String.substring n (String.length s - n) s)%string.
Proof.
  induction n as [| n IH]; intros s Hn.
  - simpl. rewrite Nat.sub_0_r.
    assert (Hfull : forall t, String.substring 0 (String.length t) t = t).
    { induction t as [| x t IHt]; simpl; [reflexivity | rewrite IHt; reflexivity]. }
    destruct s; simpl; [reflexivity |]. rewrite Hfull. reflexivity.
  - destruct s as [| x s]; simpl in Hn; [lia |].
    simpl. rewrite <- IH by lia. reflexivity.
Qed.

(** [HasSuffix s suffix] holds exactly when [s] ends with [suffix]. *)
Lemma HasSuffix_iff (s suffix : string) :
  strings.HasSuffix s suffix = true <-> exists pre, s = (pre ++ suffix)%string.
Proof.
  unfold strings.HasSuffix. split.
  - intro H. apply andb_true_iff in H. destruct H as [Hle Heq].
    apply Nat.leb_le in Hle. apply String.eqb_eq in Heq.
    exists (String.substring 0 (String.length s - String.length suffix) s).
    pose proof (substring_split (String.length s - String.length suffix) s) as Hs.
    replace (String.length s - (String.length s - String.length suffix))%nat
      with (String.length suffix) in Hs by lia.
    rewrite Heq in Hs. apply Hs. lia.
  - intros [pre ->]. rewrite length_append.
    apply andb_true_iff. split; [apply Nat.leb_le; lia |].
    replace (String.length pre + String.length suffix - String.length suffix)%nat
      with (String.length pre + 0)%nat by lia.
    rewrite substring_skip.
    assert (Hfull : forall t, String.substring 0 (String.length t) t = t).
    { induction t as [| x t IHt]; simpl; [reflexivity | rewrite IHt; reflexivity]. }
    rewrite Hfull. apply String.eqb_refl.
Qed.

(** A string that ends with [s1] ends with a shorter [s2] only if [s1]
    does. *)
Lemma HasSuffix_exclusive (a s1 s2 : string) :
  (String.length s2 <=? String.length s1)%nat = true ->
  strings.HasSuffix s1 s2 = false ->
  strings.HasSuffix a s1 = true -> strings.HasSuffix a s2 = true -> False.
Proof.
  intros Hlen Hno H1 H2. apply Nat.leb_le in Hlen.
  apply HasSuffix_iff in H1. destruct H1 as [pre ->].
  unfold strings.HasSuffix in H2, Hno. rewrite length_append in H2.
  apply andb_true_iff in H2. destruct H2 as [_ H2].
  replace (String.length pre + String.length s1 - String.length s2)%nat
    with (String.length pre + (String.length s1 - String.length s2))%nat in H2 by lia.
  rewrite substring_skip in H2. rewrite H2 in Hno.
  apply andb_false_iff in Hno. destruct Hno as [Hno | Hno]; [| discriminate].
  apply Nat.leb_gt in Hno. lia.
Qed.

(** * Further properties of the dispatcher *)

Section DispatcherMore.
Local Open Scope string_scope.

Variable EncodingForModel : string -> option (string -> list Z).
Variable json : JSON.
Variable URL_Parse : URL -> string -> result URL.
Variable client_Do : HttpRequest -> result HttpResponse.




(** Nothing is forwarded without a verdict.  When the request names a
    model and the handler returns without having sent a reservation, the
    client has got 400 and nothing went upstream. *)
Theorem GetHandler_refuses_without_forwarding o id r model request s :
  ParseRequest json r = Returns (model, request, None) ->
  model <> "" ->
  GetHandler EncodingForModel json URL_Parse client_Do o id new_ResponseWriter r
  = Finished s ->
  rw_status (served_response s) = Some StatusBadRequest /\ served_upstream s = [].
Proof.
  intros Hp Hm. unfold GetHandler. rewrite Hp.
  destruct (String.eqb model "") eqn:E; [apply String.eqb_eq in E; contradiction |].
  simpl.
  destruct (SchedulerMap_get (schedulers o) model) as [sched |];
    [| intros [= <-]; split; reflexivity].
  destruct request as [request |]; [| discriminate].
  destruct (TokensForRequest EncodingForModel request) as [tokens | e];
    [| intros [= <-]; split; reflexivity].
  destruct (_ || _); [intros [= <-]; split; reflexivity | discriminate].
Qed.

(** The pre-check and the scheduler agree.  A reservation that the handler
    sends is never answered RequestTooLarge by the scheduler of its model,
    in whatever state that scheduler is: the verdict of the pass that
    receives it is Ready, on the channel of the handler, and on Ready the
    handler forwards. *)
Theorem submitted_is_answered_Ready o id w r model scheduler sreq k :
  GetHandler EncodingForModel json URL_Parse client_Do o id w r
  = Sending model scheduler sreq k ->
  (forall fuel lag now s p,
     Config s = Config (ref_scheduler scheduler) ->
     run_pass fuel lag now s (Received sreq) = Some p ->
     pass_sent p = Some (id, Ready))
  /\ k Ready = forward_and_report URL_Parse client_Do o w r.
Proof.
  intro Hh. apply GetHandler_Sending in Hh.
  destruct Hh as (request & tokens & _ & _ & _ & -> & _ & Htpm & ->).
  split; [| reflexivity].
  intros fuel lag now s p Hc Hp.
  apply run_pass_sent in Hp. destruct Hp as [_ ->]. unfold verdict_for. simpl.
  rewrite Hc.
  destruct (Qltb (TokensPerMinute (Config (ref_scheduler scheduler))) (inject_Z tokens))
    eqn:E; [| reflexivity].
  apply Qltb_lt in E. exfalso. lra.
Qed.

(** An edits request without a model.  [ParseRequest] dereferences the nil
    [Model] of the decoded request: the handler panics. *)
Theorem edits_without_model_panics o id w r request :
  Method r = MethodPost ->
  strings.Contains (Path (req_URL r)) "/v1/files" = false ->
  strings.Contains (Path (req_URL r)) "/v1/fine-tunes" = false ->
  strings.Contains (Path (req_URL r)) "/v1/moderations" = false ->
  strings.Contains (Path (req_URL r)) "/v1/images" = false ->
  strings.Contains (Path (req_URL r)) "/v1/audio" = false ->
  strings.HasSuffix (Path (req_URL r)) "/v1/edits" = true ->
  Unmarshal_Edits json (Body r) = Ok request ->
  edits_Model request = None ->
  exists msg,
    GetHandler EncodingForModel json URL_Parse client_Do o id w r = Panicked msg.
Proof.
  intros Hm Hf Ht Hmo Hi Ha He Hu Hn.
  unfold GetHandler, ParseRequest. rewrite Hm, Hf, Ht, Hmo, Hi, Ha. simpl.
  destruct (strings.HasSuffix (Path (req_URL r)) "/v1/chat/completions") eqn:H1.
  { exfalso. revert H1 He. apply HasSuffix_exclusive; reflexivity. }
  destruct (strings.HasSuffix (Path (req_URL r)) "/v1/completions") eqn:H2.
  { exfalso. revert H2 He. apply HasSuffix_exclusive; reflexivity. }
  destruct (strings.HasSuffix (Path (req_URL r)) "/v1/embeddings") eqn:H3.
  { exfalso. revert H3 He. apply HasSuffix_exclusive; reflexivity. }
  rewrite He, Hu, Hn. eexists. reflexivity.
Qed.
End DispatcherMore.

(** ** The estimator and the forwarding step *)

(** The chat estimator gives a cost exactly for the models that have an
    encoder and a name of the gpt-3.5-turbo or gpt-4 families; for every
    other model it returns an error. *)
Theorem chat_estimator_succeeds_iff EncodingForModel r :
  (exists tokens, ChatCompletionRequest_TokensForRequest EncodingForModel r = Ok tokens)
  <-> (exists tkm, EncodingForModel (openai.Model r) = Some tkm)
      /\ chat_family (openai.Model r) = true.
Proof.
  split.
  - intros [tokens H]. unfold ChatCompletionRequest_TokensForRequest in H.
    destruct (EncodingForModel (openai.Model r)) as [tkm |]; [| discriminate].
    cbv zeta in H. destruct (overhead _) as [p |] eqn:Ho; [| discriminate].
    split; [exists tkm; reflexivity | exact (overhead_Some_family _ p Ho)].
  - intros [[tkm Henc] Hfam]. eexists.
    apply (TokensForRequest_chat_cost _ _ _ Henc Hfam).
Qed.


(** * Start-up, configuration, health and headers *)



Lemma initProviders_get now routes : forall handlers route,
  initProviders now routes = Initialized handlers ->
  match GoMap_get routes route with
  | None => GoMap_get handlers route = None
  | Some routeConfig =>
      Provider routeConfig = "openai"%string
      /\ exists schedulers,
           initSchedulers now (Models routeConfig) = Returns schedulers
           /\ GoMap_get handlers route
              = Some {| urlBase := Forward routeConfig; schedulers := schedulers |}
  end.
Proof.
  induction routes as [| [k rc] rest IH]; intros handlers route H; simpl in H.
  - injection H as <-. reflexivity.
  - destruct (String.eqb (Provider rc) "openai") eqn:Ep; [| discriminate].
    unfold NewOpenAI in H. rewrite Ep in H. simpl in H.
    destruct (initSchedulers now (Models rc)) as [m | msg] eqn:Hm; [| discriminate].
    destruct (initProviders now rest) as [hs | msg | msg]; try discriminate.
    injection H as <-. simpl.
    destruct (String.eqb k route).
    + split; [apply String.eqb_eq, Ep |]. exists m. split; [exact Hm | reflexivity].
    + apply IH. reflexivity.
Qed.

(** The route table.  When [initProviders] completes, each configured
    route has a provider that forwards to the [Forward] of the route and
    holds the schedulers of its models, and no other route has one; with a
    route whose provider is not "openai" it does not complete: the process
    exits. *)
Theorem initProviders_builds now routes :
  (forall handlers route,
     initProviders now routes = Initialized handlers ->
     match GoMap_get routes route with
     | None => GoMap_get handlers route = None
     | Some routeConfig =>
         exists schedulers,
           initSchedulers now (Models routeConfig) = Returns schedulers
           /\ GoMap_get handlers route
              = Some {| urlBase := Forward routeConfig; schedulers := schedulers |}
     end)
  /\ (Exists (fun entry => Provider (snd entry) <> "openai"%string) routes ->
      forall handlers, initProviders now routes <> Initialized handlers).
Proof.
  split.
  - intros handlers route H.
    pose proof (initProviders_get now routes handlers route H) as G.
    destruct (GoMap_get routes route); [tauto | exact G].
  - intro Hex. induction Hex as [[k rc] rest Hbad | [k rc] rest _ IH];
      intros handlers H; simpl in H.
    + simpl in Hbad. destruct (String.eqb (Provider rc) "openai") eqn:Ep;
        [apply String.eqb_eq in Ep; contradiction | discriminate].
    + destruct (String.eqb (Provider rc) "openai"); [| discriminate].
      destruct (NewOpenAI now rc); try discriminate.
      destruct (initProviders now rest) as [hs | msg | msg]; try discriminate.
      apply (IH hs). reflexivity.
Qed.

(** Configuration defaults.  [LoadConfig] panics when the file cannot be
    read or decoded.  Otherwise the configuration it returns has the routes
    of the file, the logging level, logging type and ports of the file
    where the file sets them, and "info", "console", 8080 and 8081 where it
    does not; no field of it is empty or zero; and with the defaults
    [ConfigureLogging] does not panic on the type. *)
Theorem LoadConfig_defaults ReadFile Unmarshal ParseLevel path :
  match LoadConfig ReadFile Unmarshal path with
  | Panics _ =>
      (exists e, ReadFile path = Err e)
      \/ (exists data e, ReadFile path = Ok data /\ Unmarshal data = Err e)
  | Returns config =>
      exists data file,
        ReadFile path = Ok data /\ Unmarshal data = Ok file
        /\ Routes config = Routes file
        /\ Level (Logging config)
           = (if String.eqb (Level (Logging file)) "" then "info"
              else Level (Logging file))%string
        /\ Type_ (Logging config)
           = (if String.eqb (Type_ (Logging file)) "" then "console"
              else Type_ (Logging file))%string
        /\ Port (Application config)
           = (if Port (Application file) =? 0 then 8080 else Port (Application file))
        /\ HealthPort (Application config)
           = (if HealthPort (Application file) =? 0 then 8081
              else HealthPort (Application file))
        /\ Level (Logging config) <> ""%string
        /\ Type_ (Logging config) <> ""%string
        /\ Port (Application config) <> 0
        /\ HealthPort (Application config) <> 0
        /\ (Type_ (Logging file) = ""%string ->
            forall level, ParseLevel (Level (Logging config)) = Ok level ->
            ConfigureLogging ParseLevel (Type_ (Logging config)) (Level (Logging config))
            = Returns level)
  end.
Proof.
  unfold LoadConfig.
  destruct (ReadFile path) as [data | e]; [| left; eexists; reflexivity].
  destruct (Unmarshal data) as [file | e] eqn:Hu;
    [| right; exists data, e; split; [reflexivity | exact Hu]].
  exists data, file. simpl.
  split; [reflexivity |]. split; [exact Hu |].
  repeat (split; [reflexivity |]).
  split; [destruct (String.eqb (Level (Logging file)) "") eqn:E;
          [discriminate | intro H; rewrite H in E; discriminate] |].
  split; [destruct (String.eqb (Type_ (Logging file)) "") eqn:E;
          [discriminate | intro H; rewrite H in E; discriminate] |].
  split; [destruct (Z.eqb_spec (Port (Application file)) 0); [discriminate | assumption] |].
  split; [destruct (Z.eqb_spec (HealthPort (Application file)) 0);
          [discriminate | assumption] |].
  intros Ht level Hl. rewrite Ht. simpl. unfold ConfigureLogging. simpl.
  rewrite Hl. reflexivity.
Qed.

Lemma health_run_app (events more : list HealthEvent) : forall isReady,
  health_run isReady (events ++ more)
  = (fst (health_run isReady events)
     ++ fst (health_run (snd (health_run isReady events)) more),
     snd (health_run (snd (health_run isReady events)) more)).
Proof.
  induction events as [| ev events IH]; intro isReady; simpl.
  - destruct (health_run isReady more); reflexivity.
  - destruct ev; simpl; try apply IH;
      rewrite IH; destruct (health_run isReady events); reflexivity.
Qed.

Lemma health_run_not_ready (events : list HealthEvent) :
  snd (health_run false events) = false
  /\ Forall (health_answer false) (fst (health_run false events)).
Proof.
  induction events as [| ev events [IH1 IH2]]; simpl; [auto |].
  destruct ev; simpl; auto;
    destruct (health_run false events) as [rs final]; simpl in *;
    (split; [assumption | constructor; [reflexivity | assumption]]).
Qed.

(** Liveness and readiness.  /healthz is always answered 200 "OK".
    /readyz is answered 200 "OK" as long as [HealthShutdown] has not been
    called, and 503 "Not Ready" ever after: nothing sets the flag again. *)
Theorem readiness_ends_with_shutdown :
  (forall events,
     ~ In Shutdown events ->
     snd (health_run isReady_initial events) = true
     /\ Forall (health_answer true) (fst (health_run isReady_initial events)))
  /\ (forall isReady before after,
        snd (health_run isReady (before ++ Shutdown :: after)) = false
        /\ fst (health_run isReady (before ++ Shutdown :: after))
           = fst (health_run isReady before) ++ fst (health_run false after)
        /\ Forall (health_answer false) (fst (health_run false after))).
Proof.
  split.
  - unfold isReady_initial.
    induction events as [| ev events IH]; intro Hno; simpl; [auto |].
    assert (Hno' : ~ In Shutdown events) by (intro H; apply Hno; right; exact H).
    destruct (IH Hno') as [IH1 IH2].
    destruct ev; simpl.
    + destruct (health_run true events) as [rs final]; simpl in *.
      split; [assumption | constructor; [reflexivity | assumption]].
    + destruct (health_run true events) as [rs final]; simpl in *.
      split; [assumption | constructor; [reflexivity | assumption]].
    + exfalso. apply Hno. left. reflexivity.
  - intros isReady before after. rewrite health_run_app. simpl.
    destruct (health_run_not_ready after) as [H1 H2]. auto.
Qed.

Lemma readiness_ends_with_shutdown_witness :
  Forall (health_answer true)
         (fst (health_run isReady_initial [GetReadyZ; GetHealthZ; GetReadyZ])).
Proof.
  apply (proj1 readiness_ends_with_shutdown).
  simpl. intros [H | [H | [H | H]]]; try discriminate; exact H.
Defined.

(** ** Headers *)

Lemma GoMap_get_absent {A : Type} (m : GoMap A) (key : string) :
  ~ In key (map fst m) -> GoMap_get m key = None.
Proof.
  induction m as [| [k a] rest IH]; simpl; intro H; [reflexivity |].
  destruct (String.eqb k key) eqn:E.
  - apply String.eqb_eq in E. exfalso. apply H. left. exact E.
  - apply IH. intro Hin. apply H. right. exact Hin.
Qed.

Lemma Header_Values_append (h : Header) (k v key : string) :
  Header_Values (Header_append h k v) key
  = if String.eqb k key then Header_Values h key ++ [v] else Header_Values h key.
Proof.
  unfold Header_Values.
  induction h as [| [k0 vv] rest IH]; simpl.
  - destruct (String.eqb k key); reflexivity.
  - destruct (String.eqb k0 k) eqn:E0; simpl.
    + apply String.eqb_eq in E0. subst k0.
      destruct (String.eqb k key); reflexivity.
    + destruct (String.eqb k0 key) eqn:E1.
      * destruct (String.eqb k key) eqn:E2; [| reflexivity].
        apply String.eqb_eq in E1, E2. subst. rewrite String.eqb_refl in E0. discriminate.
      * exact IH.
Qed.

Lemma Header_Values_append_all (vv : list string) : forall (h : Header) (k key : string),
  Header_Values (fold_left (fun dst v => Header_append dst k v) vv h) key
  = if String.eqb k key then Header_Values h key ++ vv else Header_Values h key.
Proof.
  induction vv as [| v vv IH]; intros h k key; simpl.
  - destruct (String.eqb k key); [rewrite app_nil_r |]; reflexivity.
  - rewrite IH, Header_Values_append.
    destruct (String.eqb k key); [rewrite <- app_assoc |]; reflexivity.
Qed.

(** Header pass-through.  For a source whose keys are distinct and in
    canonical form, as the keys of a parsed header are, [copyHeader] leaves
    under every key the values the destination had, followed by the values
    of the source, in their order; no value is lost or changed. *)
Theorem copyHeader_appends canon (src : Header) : forall (dst : Header) (key : string),
  NoDup (map fst src) ->
  (forall k, In k (map fst src) -> canon k = k) ->
  Header_Values (copyHeader canon dst src) key
  = Header_Values dst key ++ Header_Values src key.
Proof.
  unfold copyHeader.
  induction src as [| [k vv] rest IH]; intros dst key Hnd Hcanon; simpl.
  - rewrite app_nil_r. reflexivity.
  - inversion Hnd as [| ? ? Hnotin Hnd']; subst.
    rewrite IH; [| exact Hnd' | intros k' Hk'; apply Hcanon; right; exact Hk'].
    unfold Header_Add. rewrite (Hcanon k) by (left; reflexivity).
    rewrite Header_Values_append_all.
    assert (Hhead : Header_Values ((k, vv) :: rest) key
                    = if String.eqb k key then vv else Header_Values rest key).
    { unfold Header_Values. simpl. destruct (String.eqb k key); reflexivity. }
    rewrite Hhead.
    destruct (String.eqb k key) eqn:E; [| reflexivity].
    apply String.eqb_eq in E. subst key.
    assert (Hnone : Header_Values rest k = []).
    { unfold Header_Values. rewrite (GoMap_get_absent rest k Hnotin). reflexivity. }
    rewrite Hnone, app_nil_r. reflexivity.
Qed.

Lemma copyHeader_appends_witness :
  Header_Values
    (copyHeader (fun k => k) [("Accept"%string, ["*/*"%string])]
                [("Authorization"%string, ["Bearer k"%string]);
                 ("Accept"%string, ["text/plain"%string; "application/json"%string])])
    "Accept"
  = ["*/*"; "text/plain"; "application/json"]%string.
Proof.
  apply (copyHeader_appends (fun k => k)
           [("Authorization"%string, ["Bearer k"%string]);
            ("Accept"%string, ["text/plain"%string; "application/json"%string])]
           [("Accept"%string, ["*/*"%string])] "Accept"%string).
  - repeat constructor; simpl; intuition discriminate.
  - reflexivity.
Defined.

(** * The further properties at concrete inputs *)





Lemma GetHandler_refuses_without_forwarding_witness :
  exists s,
    GetHandler Fixtures.test_EncodingForModel Fixtures.test_json Fixtures.test_URL_Parse
               Fixtures.MockHttpClient_Do Samples.dalle_provider 1
               new_ResponseWriter
               (Fixtures.POST "/openai/v1/chat/completions" Fixtures.test_chat_body)
    = Finished s
    /\ rw_status (served_response s) = Some StatusBadRequest /\ served_upstream s = [].
Proof.
  eexists. split; [vm_compute; reflexivity |].
  apply (GetHandler_refuses_without_forwarding
           Fixtures.test_EncodingForModel Fixtures.test_json Fixtures.test_URL_Parse
           Fixtures.MockHttpClient_Do Samples.dalle_provider 1%nat
           (Fixtures.POST "/openai/v1/chat/completions" Fixtures.test_chat_body)
           Fixtures.TEST_MODEL (Some (ReqChatCompletion Fixtures.test_chat_request))).
  - reflexivity.
  - discriminate.
  - vm_compute. reflexivity.
Defined.

Lemma submitted_is_answered_Ready_witness :
  exists p,
    run_pass 1000 Fixtures.no_lag 0 Fixtures.drained (Received (mkScheduledRequest 7 23))
    = Some p
    /\ pass_sent p = Some (7%nat, Ready).
Proof.
  destruct (run_pass 1000 Fixtures.no_lag 0 Fixtures.drained
                     (Received (mkScheduledRequest 7 23))) as [p |] eqn:Hp;
    [| vm_compute in Hp; discriminate].
  exists p. split; [reflexivity |].
  refine (proj1 (submitted_is_answered_Ready
            Fixtures.test_EncodingForModel Fixtures.test_json Fixtures.test_URL_Parse
            Fixtures.MockHttpClient_Do (Fixtures.CreateOpenAI Fixtures.empty_chan) 7
            new_ResponseWriter
            (Fixtures.POST "/openai/v1/chat/completions" Fixtures.test_chat_body)
            Fixtures.TEST_MODEL
            (mkSchedulerRef (initScheduler 0 Fixtures.test_config) Fixtures.empty_chan)
            (mkScheduledRequest 7 23) _ _)
            1000%nat Fixtures.no_lag 0 Fixtures.drained p _ Hp).
  - vm_compute. reflexivity.
  - reflexivity.
Defined.

Lemma edits_without_model_panics_witness :
  exists msg,
    GetHandler Fixtures.test_EncodingForModel Samples.edits_json Fixtures.test_URL_Parse
               Fixtures.MockHttpClient_Do (Fixtures.CreateOpenAI Fixtures.empty_chan) 1
               new_ResponseWriter (Fixtures.POST "/openai/v1/edits" "{}")
    = Panicked msg.
Proof.
  apply (edits_without_model_panics
           Fixtures.test_EncodingForModel Samples.edits_json Fixtures.test_URL_Parse
           Fixtures.MockHttpClient_Do (Fixtures.CreateOpenAI Fixtures.empty_chan) 1%nat
           new_ResponseWriter (Fixtures.POST "/openai/v1/edits" "{}")
           (mkEditsRequest None)); reflexivity.
Defined.

Lemma images_with_scheduler_panic_witness :
  exists msg,
    GetHandler Fixtures.test_EncodingForModel Fixtures.test_json Fixtures.test_URL_Parse
               Fixtures.MockHttpClient_Do Samples.dalle_provider 1
               new_ResponseWriter (Fixtures.POST "/openai/v1/images/generations" "{}")
    = Panicked msg.
Proof.
  apply (images_with_scheduler_panic
           Fixtures.test_EncodingForModel Fixtures.test_json Fixtures.test_URL_Parse
           Fixtures.MockHttpClient_Do Samples.dalle_provider 1%nat new_ResponseWriter
           (Fixtures.POST "/openai/v1/images/generations" "{}")
           (mkSchedulerRef (initScheduler 0 Fixtures.test_config) Fixtures.empty_chan));
    reflexivity.
Defined.

Lemma submitted_cost_bounds_witness :
  (0 <= RequiredTokenCapacity (mkScheduledRequest 7 23))%Q
  /\ (RequiredTokenCapacity (mkScheduledRequest 7 23)
      <= TokensPerMinute Fixtures.test_config)%Q.
Proof.
  apply (submitted_cost_bounds
           Fixtures.test_EncodingForModel Fixtures.test_json Fixtures.test_URL_Parse
           Fixtures.MockHttpClient_Do (Fixtures.CreateOpenAI Fixtures.empty_chan) 7%nat
           new_ResponseWriter
           (Fixtures.POST "/openai/v1/chat/completions" Fixtures.test_chat_body)
           Fixtures.TEST_MODEL
           (mkSchedulerRef (initScheduler 0 Fixtures.test_config) Fixtures.empty_chan)
           (mkScheduledRequest 7 23)
           (after_verdict Fixtures.test_URL_Parse Fixtures.MockHttpClient_Do
              (Fixtures.CreateOpenAI Fixtures.empty_chan) Fixtures.TEST_MODEL
              new_ResponseWriter
              (Fixtures.POST "/openai/v1/chat/completions" Fixtures.test_chat_body))).
  - vm_compute. reflexivity.
  - intros cr tkm Hparse Henc.
    vm_compute in Hparse. injection Hparse as <-.
    vm_compute in Henc. injection Henc as <-.
    vm_compute. split; discriminate || reflexivity.
Defined.

Lemma chat_estimator_succeeds_iff_witness :
  exists tokens,
    ChatCompletionRequest_TokensForRequest Fixtures.test_EncodingForModel S4_request
    = Ok tokens.
Proof.
  apply (proj2 (chat_estimator_succeeds_iff Fixtures.test_EncodingForModel S4_request)).
  split; [eexists; reflexivity | reflexivity].
Defined.



Lemma initProviders_builds_witness :
  exists handlers schedulers,
    initProviders (fun _ => 0) [("openai"%string, Samples.openai_route)]
    = Initialized handlers
    /\ GoMap_get handlers "openai"
       = Some {| urlBase := "https://api.openai.com"; schedulers := schedulers |}.
Proof.
  destruct (initProviders (fun _ => 0) [("openai"%string, Samples.openai_route)])
    as [handlers | msg | msg] eqn:Hi; try (vm_compute in Hi; discriminate).
  pose proof (proj1 (initProviders_builds (fun _ => 0)
                       [("openai"%string, Samples.openai_route)])
                handlers "openai"%string Hi) as H.
  simpl in H. destruct H as (schedulers & _ & Hget).
  exists handlers, schedulers. split; [reflexivity | exact Hget].
Defined.

Lemma LoadConfig_defaults_witness :
  exists config,
    LoadConfig Samples.sample_ReadFile Samples.sample_Unmarshal "config.json"
    = Returns config
    /\ Port (Application config) = 8080 /\ HealthPort (Application config) = 8081
    /\ ConfigureLogging Samples.sample_ParseLevel (Type_ (Logging config))
                        (Level (Logging config))
       = Returns 0.
Proof.
  pose proof (LoadConfig_defaults Samples.sample_ReadFile Samples.sample_Unmarshal
                Samples.sample_ParseLevel "config.json") as H.
  destruct (LoadConfig Samples.sample_ReadFile Samples.sample_Unmarshal "config.json")
    as [config | msg] eqn:Hload; [| vm_compute in Hload; discriminate].
  destruct H as (data & file & Hread & Hparse & _ & _ & _ & Hport & Hhealth & _ & _ & _ & _
                 & Hlog).
  vm_compute in Hread. injection Hread as <-.
  vm_compute in Hparse. injection Hparse as <-.
  exists config. split; [reflexivity |].
  split; [exact Hport |]. split; [exact Hhealth |].
  apply Hlog; [reflexivity |].
  vm_compute in Hload. injection Hload as <-. reflexivity.
Defined.
